(** * CrewAIBuilder (agent-backend/src/build/build_crew.py)

    A shallow embedding of the crew builder: the key-subset lookups over
    the configuration mappings, the five build steps, the step callback
    and the run call, with the socket traffic and the log kept as an
    explicit event trace. *)

From stdpp Require Import gmap strings list.

(** ** Keys and mappings *)

(** [Set[PyObjectId]]: identifiers are strings, a key is a finite set of
    them.  Python compares sets extensionally, which is Leibniz equality
    on [gset]. *)
Definition PyObjectId : Type := string.
Abbreviation Key := (gset string).

(** [key.issubset(k)] and [key == k]. *)
Definition issubset (key k : Key) : bool := bool_decide (key ⊆ k).
Definition key_eq (key k : Key) : bool := bool_decide (key = k).

(** A Python [dict] keeps its entries in insertion order and the loops of
    the builder depend on that order, so a mapping is the list of its
    [items()].  A dict never holds a key twice: [dict_wf]. *)
Abbreviation pydict V := (list (Key * V)).

Definition keys {V} (d : pydict V) : list Key := d.*1.
Definition values {V} (d : pydict V) : list V := d.*2.
Definition dict_wf {V} (d : pydict V) : Prop := NoDup (keys d).

(** [d[k]] read as [d.get(k)]. *)
Fixpoint dict_get {V} (d : pydict V) (k : Key) : option V :=
  match d with
  | [] => None
  | (k', v') :: r => if key_eq k k' then Some v' else dict_get r k
  end.

(** [d[k] = v]: an existing key keeps its position and gets the new
    value, a new key goes to the end. *)
Fixpoint dict_set {V} (d : pydict V) (k : Key) (v : V) : pydict V :=
  match d with
  | [] => [(k, v)]
  | (k', v') :: r =>
      if key_eq k k' then (k', v) :: r else (k', v') :: dict_set r k v
  end.

(** ** The two static lookups *)

Section Lookups.
Context {V : Type}.

(** [match_key]: the values are configuration records or built objects,
    never [None]; the result [None] is the fall-through [return None]. *)
Fixpoint match_key (elements_dict : pydict V) (key : Key) (exact : bool)
  : option V :=
  match elements_dict with
  | [] => None
  | (k, v) :: rest =>
      if exact && key_eq key k then Some v
      else if issubset key k then Some v
      else match_key rest key exact
  end.

(** [search_subordinate_keys]: [results] starts empty and is filled by
    [results[k] = v] in iteration order. *)
Fixpoint search_subordinate_keys_from (results elements_dict : pydict V)
    (key : Key) : pydict V :=
  match elements_dict with
  | [] => results
  | (k, v) :: rest =>
      if issubset key k && negb (key_eq key k)
      then search_subordinate_keys_from (dict_set results k v) rest key
      else search_subordinate_keys_from results rest key
  end.

Definition search_subordinate_keys (elements_dict : pydict V) (key : Key)
  : pydict V :=
  search_subordinate_keys_from [] elements_dict key.
End Lookups.


(** ** Configuration records (models.mongo)

    The record classes live outside this file of the repository; each is
    given the attributes the builder reads, and [fields] for what
    [model_dump(exclude_none=True, exclude_unset=True)] serialises. *)

Definition kwargs : Type := list (string * string).

(** [model_dump(..., exclude=[...])]. *)
Definition model_dump (fields : kwargs) (exclude : list string) : kwargs :=
  filter (λ kv, kv.1 ∉ exclude) fields.

Module mongo.
(** [Platforms]: the three members the builder names, and any other. *)
Inductive Platforms :=
| ChatOpenAI
| AzureChatOpenAI
| FastEmbed
| OtherPlatform (name : string).

Record Credentials := {
  type : Platforms;
  credentials_api_key : string;
}.
Record Model := {
  model_name : string;
  model_fields : kwargs;
}.
Record Tool := {
  name : string;
  description : string;
}.
Record Datasource := { id : string }.
Record Agent := { agent_fields : kwargs }.
Record Task := {
  agentId : PyObjectId;
  task_fields : kwargs;
}.
Record Crew := { crew_fields : kwargs }.
End mongo.

(** ** Built objects (langchain, crewai, tools)

    Third-party constructors are taken as total data constructors that
    record their arguments. *)

Inductive LLM :=
| ChatOpenAI (api_key : string) (kw : kwargs)
| AzureChatOpenAI (api_key : string) (kw : kwargs)
| FastEmbedEmbeddings (kw : kwargs).

Record Qdrant := {
  qdrant_client : string;
  collection_name : string;
  embeddings : LLM;
  vector_name : string;
}.

(** [RagToolFactory().init(store, embedding).generate_langchain_tool(name,
    description)]. *)
Record LangchainTool := {
  tool_name : string;
  tool_description : string;
  tool_store : Qdrant;
  tool_embedding : LLM;
}.

(** The bound method handed to the crew as [step_callback]. *)
Inductive Callback := self_send_it.

Module crewai.
Record Agent := {
  agent_kwargs : kwargs;
  llm : option LLM;
  agent_tools : list LangchainTool;
}.
Record Task := {
  task_kwargs : kwargs;
  agent : option Agent;
  task_tools : list LangchainTool;
}.
Record Crew := {
  agents : list Agent;
  tasks : list Task;
  crew_kwargs : kwargs;
  step_callback : Callback;
}.
End crewai.

(** ** Messages handed to the step callback *)

#[warnings="-register-all"]
Inductive pyvalue :=
| PyNone
| PyStr (s : string)
| PyAgentFinish (return_values : option (list (string * pyvalue)))
| PyList (parts : list pyvalue)
| PyTuple (parts : list pyvalue)
| PyObject (type_name repr : string).

(** [return_values.get('output')]. *)
Fixpoint rv_get (rv : list (string * pyvalue)) (k : string) : pyvalue :=
  match rv with
  | [] => PyNone
  | (k', v) :: r => if String.eqb k' k then v else rv_get r k
  end.

(** models.sockets *)
Record Message := {
  text : pyvalue;
  tokens : Z;
  first : bool;
}.
Record SocketMessage := {
  room : string;
  authorName : string;
  message : Message;
}.
Inductive SocketEvents := MESSAGE | OtherEvent (name : string).

(** ** Exceptions

    [exn] ranges over instances of Python's [Exception], the class the
    [except Exception] clauses name; [ConnError] is socketio's
    [ConnectionError], the class [init_socket] catches. *)
Inductive exn_class :=
| ConnError
| AttributeError
| OtherError (name : string).

Record exn := { exn_type : exn_class; exn_str : string }.

Definition is_ConnError (e : exn) : bool :=
  match exn_type e with ConnError => true | _ => false end.

(** [except Exception] *)
Definition is_Exception (e : exn) : bool := true.

Inductive Result (A : Type) :=
| Ok (a : A)
| Raise (e : exn).
Arguments Ok {A} a.
Arguments Raise {A} e.

(** ** Observable events *)

Inductive build_step :=
| step_models
| step_tools
| step_agents
| step_tasks
| step_crew.

Inductive event :=
| EvPrint (line : string)
| EvPrintFailed (message : pyvalue)
| EvConnect (url : string) (headers : list (string * string))
| EvEmit (event_name data : string)
| EvSend (ev : SocketEvents) (msg : SocketMessage) (socket_logging : string)
| EvLogError (line : string)
| EvLogException (e : exn)
| EvKickoff
| EvStep (s : build_step).

(** ** The builder object *)

Record SimpleClient := { connected : bool }.

Record CrewAIBuilder := {
  session_id : string;
  crew_model : mongo.Crew;
  agents_models : pydict mongo.Agent;
  tasks_models : pydict mongo.Task;
  tools_models : pydict mongo.Tool;
  datasources_models : pydict mongo.Datasource;
  models_models : pydict mongo.Model;
  credentials_models : pydict mongo.Credentials;
  crew : option crewai.Crew;
  crew_models : pydict LLM;
  crew_tools : pydict LangchainTool;
  crew_agents : pydict crewai.Agent;
  crew_tasks : pydict crewai.Task;
  socket : option SimpleClient;
}.

Definition set_crew (b : CrewAIBuilder) (c : option crewai.Crew) :=
  {| session_id := session_id b; crew_model := crew_model b;
     agents_models := agents_models b; tasks_models := tasks_models b;
     tools_models := tools_models b; datasources_models := datasources_models b;
     models_models := models_models b; credentials_models := credentials_models b;
     crew := c; crew_models := crew_models b; crew_tools := crew_tools b;
     crew_agents := crew_agents b; crew_tasks := crew_tasks b;
     socket := socket b |}.

Definition set_crew_models (b : CrewAIBuilder) (d : pydict LLM) :=
  {| session_id := session_id b; crew_model := crew_model b;
     agents_models := agents_models b; tasks_models := tasks_models b;
     tools_models := tools_models b; datasources_models := datasources_models b;
     models_models := models_models b; credentials_models := credentials_models b;
     crew := crew b; crew_models := d; crew_tools := crew_tools b;
     crew_agents := crew_agents b; crew_tasks := crew_tasks b;
     socket := socket b |}.

Definition set_crew_tools (b : CrewAIBuilder) (d : pydict LangchainTool) :=
  {| session_id := session_id b; crew_model := crew_model b;
     agents_models := agents_models b; tasks_models := tasks_models b;
     tools_models := tools_models b; datasources_models := datasources_models b;
     models_models := models_models b; credentials_models := credentials_models b;
     crew := crew b; crew_models := crew_models b; crew_tools := d;
     crew_agents := crew_agents b; crew_tasks := crew_tasks b;
     socket := socket b |}.

Definition set_crew_agents (b : CrewAIBuilder) (d : pydict crewai.Agent) :=
  {| session_id := session_id b; crew_model := crew_model b;
     agents_models := agents_models b; tasks_models := tasks_models b;
     tools_models := tools_models b; datasources_models := datasources_models b;
     models_models := models_models b; credentials_models := credentials_models b;
     crew := crew b; crew_models := crew_models b; crew_tools := crew_tools b;
     crew_agents := d; crew_tasks := crew_tasks b;
     socket := socket b |}.

Definition set_crew_tasks (b : CrewAIBuilder) (d : pydict crewai.Task) :=
  {| session_id := session_id b; crew_model := crew_model b;
     agents_models := agents_models b; tasks_models := tasks_models b;
     tools_models := tools_models b; datasources_models := datasources_models b;
     models_models := models_models b; credentials_models := credentials_models b;
     crew := crew b; crew_models := crew_models b; crew_tools := crew_tools b;
     crew_agents := crew_agents b; crew_tasks := d;
     socket := socket b |}.

Definition set_socket (b : CrewAIBuilder) (s : option SimpleClient) :=
  {| session_id := session_id b; crew_model := crew_model b;
     agents_models := agents_models b; tasks_models := tasks_models b;
     tools_models := tools_models b; datasources_models := datasources_models b;
     models_models := models_models b; credentials_models := credentials_models b;
     crew := crew b; crew_models := crew_models b; crew_tools := crew_tools b;
     crew_agents := crew_agents b; crew_tasks := crew_tasks b;
     socket := s |}.

(** ** Effects

    A method runs against the events that happened so far ([history]) and
    the builder, and yields a result or a raised exception, the mutated
    builder, and the events it added.  A mutation made before a raise
    stays. *)

Record Outcome (A : Type) := {
  result : Result A;
  self_after : CrewAIBuilder;
  emitted : list event;
}.
Arguments result {A} _.
Arguments self_after {A} _.
Arguments emitted {A} _.

Definition M (A : Type) : Type := list event → CrewAIBuilder → Outcome A.

Definition ret {A} (a : A) : M A :=
  λ _ b, {| result := Ok a; self_after := b; emitted := [] |}.

Definition raise {A} (e : exn) : M A :=
  λ _ b, {| result := Raise e; self_after := b; emitted := [] |}.

(** The outcome [o] of a continuation, after the events [evs] that came
    before it. *)
Definition after_events {A} (evs : list event) (o : Outcome A) : Outcome A :=
  {| result := result o; self_after := self_after o;
     emitted := evs ++ emitted o |}.

Definition bind {A B} (m : M A) (f : A → M B) : M B :=
  λ h b,
    let o := m h b in
    match result o with
    | Ok a => after_events (emitted o) (f a (h ++ emitted o) (self_after o))
    | Raise e =>
        {| result := Raise e; self_after := self_after o;
           emitted := emitted o |}
    end.

Declare Scope py_scope.
Delimit Scope py_scope with py.
Notation "x <- m ;; k" := (bind m (λ x, k))
  (at level 100, m at level 99, k at level 200, only parsing) : py_scope.
Notation "m ;; k" := (bind m (λ _, k))
  (at level 100, k at level 200, only parsing) : py_scope.
Open Scope py_scope.

Definition get_self : M CrewAIBuilder :=
  λ _ b, {| result := Ok b; self_after := b; emitted := [] |}.

Definition update_self (f : CrewAIBuilder → CrewAIBuilder) : M unit :=
  λ _ b, {| result := Ok tt; self_after := f b; emitted := [] |}.

Definition get_history : M (list event) :=
  λ h b, {| result := Ok h; self_after := b; emitted := [] |}.

Definition emit_event (e : event) : M unit :=
  λ _ b, {| result := Ok tt; self_after := b; emitted := [e] |}.

(** [try: body except <class> as e: handler e] *)
Definition try_except {A} (body : M A) (catches : exn → bool)
    (handler : exn → M A) : M A :=
  λ h b,
    let o := body h b in
    match result o with
    | Ok a => o
    | Raise e =>
        if catches e then
          after_events (emitted o) (handler e (h ++ emitted o) (self_after o))
        else o
    end.

(** [for x in l: body x], written [for_each body l]. *)
Section ForEach.
Context {A : Type} (body : A → M unit).

Fixpoint for_each (l : list A) : M unit :=
  match l with
  | [] => ret tt
  | x :: r => body x ;; for_each r
  end.
End ForEach.

(** [for key, x in d.items(): body (key, x)] *)
Definition for_each_item {V} (d : pydict V) (body : Key * V → M unit) : M unit :=
  for_each body d.

(** An external call that is recorded and then succeeds or raises as the
    environment decides. *)
Definition external (e : event) (outcome : list event → option exn) : M unit :=
  h <- get_history ;;
  emit_event e ;;
  match outcome h with
  | Some x => raise x
  | None => ret tt
  end.

(** ** What the builder takes from outside this file

    The three settings of init.env_variables, the [keyset] helper of
    utils.model_helper, and how the socket, the message classes, the
    printing of a message and the crew engine behave: each fallible call
    may raise, depending on its arguments and on what happened before. *)
Record Env := {
  AGENT_BACKEND_SOCKET_TOKEN : string;
  QDRANT_HOST : string;
  SOCKET_URL : string;
  keyset : PyObjectId → Key;
  connect_raises : list event → option exn;
  emit_raises : list event → option exn;
  send_raises : SocketMessage → list event → option exn;
  message_raises : pyvalue → option exn;
  print_raises : pyvalue → list event → option exn;
  kickoff_steps : crewai.Crew → list event → list pyvalue;
  kickoff_raises : crewai.Crew → list event → option exn;
}.

Definition NoneType_has_no_attribute (attr : string) : exn :=
  {| exn_type := AttributeError;
     exn_str := "'NoneType' object has no attribute '" +:+ attr +:+ "'" |}.

Definition object_has_no_attribute (attr : string) : exn :=
  {| exn_type := AttributeError;
     exn_str := "'CrewAIBuilder' object has no attribute '" +:+ attr +:+ "'" |}.

(** ** The methods of CrewAIBuilder *)

Section Builder.
Variable E : Env.

(** [init_socket] *)
Definition init_socket : M unit :=
  try_except
    (update_self (λ b, set_socket b (Some {| connected := false |})) ;;
     let custom_headers :=
       [("x-agent-backend-socket-token", AGENT_BACKEND_SOCKET_TOKEN E)] in
     emit_event (EvPrint ("Socker URL:   " +:+ SOCKET_URL E)) ;;
     external (EvConnect (SOCKET_URL E) custom_headers) (connect_raises E) ;;
     update_self (λ b, set_socket b (Some {| connected := true |})) ;;
     b <- get_self ;;
     external (EvEmit "join_room" ("_" +:+ session_id b)) (emit_raises E))
    is_ConnError
    (λ ce,
       emit_event (EvLogError ("Connection error occurred: " +:+ exn_str ce)) ;;
       raise ce).

(** The assignments of [__init__], before its call of [init_socket]:
    the [socket] attribute does not exist yet. *)
Definition new_builder (session_id : string) (crew : mongo.Crew)
    (agents : pydict mongo.Agent) (tasks : pydict mongo.Task)
    (tools : pydict mongo.Tool) (datasources : pydict mongo.Datasource)
    (models : pydict mongo.Model) (credentials : pydict mongo.Credentials)
  : CrewAIBuilder :=
  {| session_id := session_id; crew_model := crew;
     agents_models := agents; tasks_models := tasks; tools_models := tools;
     datasources_models := datasources; models_models := models;
     credentials_models := credentials;
     crew := None; crew_models := []; crew_tools := [];
     crew_agents := []; crew_tasks := [];
     socket := None |}.

(** [__init__]: the outcome of constructing a builder; when its result
    is [Raise], no instance reaches the caller. *)
Definition __init__ (session_id : string) (crew : mongo.Crew)
    (agents : pydict mongo.Agent) (tasks : pydict mongo.Task)
    (tools : pydict mongo.Tool) (datasources : pydict mongo.Datasource)
    (models : pydict mongo.Model) (credentials : pydict mongo.Credentials)
    (history : list event) : Outcome unit :=
  init_socket history
    (new_builder session_id crew agents tasks tools datasources models
       credentials).

(** [build_models_with_credentials] *)
Definition build_models_with_credentials : M unit :=
  emit_event (EvStep step_models) ;;
  self <- get_self ;;
  for_each_item (models_models self) (λ '(key, model),
    self <- get_self ;;
    let credential := match_key (credentials_models self) key false in
    match credential with
    | Some credential =>
        match mongo.type credential with
        | mongo.ChatOpenAI =>
            update_self (λ self, set_crew_models self
              (dict_set (crew_models self) key
                 (ChatOpenAI (mongo.credentials_api_key credential)
                    (model_dump (mongo.model_fields model)
                       ["id"; "credentialId"; "embeddingLength"]))))
        | mongo.AzureChatOpenAI =>
            update_self (λ self, set_crew_models self
              (dict_set (crew_models self) key
                 (AzureChatOpenAI (mongo.credentials_api_key credential)
                    (model_dump (mongo.model_fields model)
                       ["id"; "credentialId"; "embeddingLength"]))))
        | mongo.FastEmbed =>
            update_self (λ self, set_crew_models self
              (dict_set (crew_models self) key
                 (FastEmbedEmbeddings
                    (model_dump (mongo.model_fields model)
                       ["id"; "name"; "embeddingLength"]))))
        | mongo.OtherPlatform _ => ret tt
        end
    | None => ret tt
    end).

(** [build_tools_and_their_datasources] *)
Definition build_tools_and_their_datasources : M unit :=
  emit_event (EvStep step_tools) ;;
  self <- get_self ;;
  for_each_item (tools_models self) (λ '(key, tool),
    self <- get_self ;;
    let datasource := match_key (datasources_models self) key false in
    match datasource with
    | Some datasource =>
        let embedding_model := match_key (crew_models self) key false in
        let embedding_model_model :=
          match_key (models_models self) key false in
        match embedding_model with
        | Some embedding_model =>
            let collection := mongo.id datasource in
            match embedding_model_model with
            | Some embedding_model_model =>
                let tool_factory_store :=
                  {| qdrant_client := QDRANT_HOST E;
                     collection_name := collection;
                     embeddings := embedding_model;
                     vector_name := mongo.model_name embedding_model_model |} in
                update_self (λ self, set_crew_tools self
                  (dict_set (crew_tools self) key
                     {| tool_name := mongo.name tool;
                        tool_description := mongo.description tool;
                        tool_store := tool_factory_store;
                        tool_embedding := embedding_model |}))
            | None => raise (NoneType_has_no_attribute "model_name")
            end
        | None => ret tt
        end
    | None => ret tt
    end).

(** [build_agents] *)
Definition build_agents : M unit :=
  emit_event (EvStep step_agents) ;;
  self <- get_self ;;
  for_each_item (agents_models self) (λ '(key, agent),
    self <- get_self ;;
    let model_obj := match_key (crew_models self) key true in
    let agent_tools_objs := search_subordinate_keys (crew_tools self) key in
    update_self (λ self, set_crew_agents self
      (dict_set (crew_agents self) key
         {| crewai.agent_kwargs :=
              model_dump (mongo.agent_fields agent)
                ["id"; "toolIds"; "modelId"; "taskIds"];
            crewai.llm := model_obj;
            crewai.agent_tools := values agent_tools_objs |}))).

(** [build_tasks] *)
Definition build_tasks : M unit :=
  emit_event (EvStep step_tasks) ;;
  self <- get_self ;;
  for_each_item (tasks_models self) (λ '(key, task),
    self <- get_self ;;
    let agent_obj :=
      match_key (crew_agents self) (keyset E (mongo.agentId task)) true in
    let task_tools_objs := search_subordinate_keys (crew_tools self) key in
    update_self (λ self, set_crew_tasks self
      (dict_set (crew_tasks self) key
         {| crewai.task_kwargs := model_dump (mongo.task_fields task) ["id"];
            crewai.agent := agent_obj;
            crewai.task_tools := values task_tools_objs |}))).

(** Step 5 of [build_crew]: the [Crew(...)] construction and its
    assignment to [self.crew]. *)
Definition build_crew_object : M unit :=
  emit_event (EvStep step_crew) ;;
  update_self (λ self, set_crew self
    (Some {| crewai.agents := values (crew_agents self);
             crewai.tasks := values (crew_tasks self);
             crewai.crew_kwargs :=
               model_dump (mongo.crew_fields (crew_model self))
                 ["id"; "tasks"; "agents"];
             crewai.step_callback := self_send_it |})).

(** [build_crew] *)
Definition build_crew : M unit :=
  build_models_with_credentials ;;
  build_tools_and_their_datasources ;;
  build_agents ;;
  build_tasks ;;
  build_crew_object.

(** [send_it] *)
Fixpoint send_it (message : pyvalue) : M unit :=
  try_except
    (match message with
     | PyAgentFinish return_values =>
         match return_values with
         | Some return_values =>
             self <- get_self ;;
             let output := rv_get return_values "output" in
             match message_raises E output with
             | Some e => raise e
             | None =>
                 let socket_message :=
                   {| room := session_id self;
                      authorName := "system";
                      message :=
                        {| text := output; tokens := 1; first := true |} |} in
                 match socket self with
                 | Some _ =>
                     external (EvSend MESSAGE socket_message "both")
                       (send_raises E socket_message)
                 | None => raise (object_has_no_attribute "socket")
                 end
             end
         | None => ret tt
         end
     | PyList parts | PyTuple parts => for_each send_it parts
     | _ => external (EvPrintFailed message) (print_raises E message)
     end)
    is_Exception
    (λ e, emit_event (EvLogException e)).

(** What [crew.kickoff()] does as far as the builder can see: the engine
    hands its steps to the installed callback one by one, then returns
    or raises. *)
Definition call_callback (c : Callback) (message : pyvalue) : M unit :=
  match c with
  | self_send_it => send_it message
  end.

Definition kickoff (c : crewai.Crew) : M unit :=
  h <- get_history ;;
  emit_event EvKickoff ;;
  for_each (call_callback (crewai.step_callback c)) (kickoff_steps E c h) ;;
  match kickoff_raises E c h with
  | Some e => raise e
  | None => ret tt
  end.

(** [run_crew] *)
Definition run_crew : M unit :=
  try_except
    (self <- get_self ;;
     match crew self with
     | Some c => kickoff c
     | None => raise (NoneType_has_no_attribute "kickoff")
     end)
    is_Exception
    (λ e, emit_event (EvLogException e)).
End Builder.

(** * Vocabulary of the properties *)

(** The entries [search_subordinate_keys] is to keep: the key-set
    contains the query and differs from it. *)
Definition strictly_below {V} (key : Key) (kv : Key * V) : Prop :=
  key ⊆ kv.1 ∧ key ≠ kv.1.

#[global] Instance strictly_below_dec {V} key (kv : Key * V) :
  Decision (strictly_below key kv).
Proof. unfold strictly_below. apply _. Defined.

(** The platforms for which [build_models_with_credentials] has a case. *)
Definition supported_platform (p : mongo.Platforms) : Prop :=
  p = mongo.ChatOpenAI ∨ p = mongo.AzureChatOpenAI ∨ p = mongo.FastEmbed.

Definition is_connect (e : event) : bool :=
  match e with EvConnect _ _ => true | _ => false end.

(** The [send] calls among some events, in order. *)
Definition sent (evs : list event)
  : list (SocketEvents * SocketMessage * string) :=
  flat_map (λ e, match e with
                 | EvSend ev msg lg => [(ev, msg, lg)]
                 | _ => []
                 end) evs.

(** The return values of the [AgentFinish] messages that a message is or
    contains through lists and tuples, left to right. *)
Fixpoint agent_finishes (message : pyvalue) : list (list (string * pyvalue)) :=
  match message with
  | PyAgentFinish (Some return_values) => [return_values]
  | PyList parts | PyTuple parts => flat_map agent_finishes parts
  | _ => []
  end.

(** The [send] call that belongs to one [AgentFinish]. *)
Definition finish_send (session_id : string)
    (return_values : list (string * pyvalue))
  : SocketEvents * SocketMessage * string :=
  (MESSAGE,
   {| room := session_id; authorName := "system";
      message := {| text := rv_get return_values "output";
                    tokens := 1; first := true |} |},
   "both").

(** The objects that one round of the loops of [build_agents] and
    [build_tasks] stores under [key], read off the builder [b] the loop
    started with. *)
Definition built_agent (b : CrewAIBuilder) (key : Key) (agent : mongo.Agent)
  : crewai.Agent :=
  {| crewai.agent_kwargs :=
       model_dump (mongo.agent_fields agent)
         ["id"; "toolIds"; "modelId"; "taskIds"];
     crewai.llm := match_key (crew_models b) key true;
     crewai.agent_tools := values (search_subordinate_keys (crew_tools b) key) |}.

Definition built_task (E : Env) (b : CrewAIBuilder) (key : Key)
    (task : mongo.Task) : crewai.Task :=
  {| crewai.task_kwargs := model_dump (mongo.task_fields task) ["id"];
     crewai.agent :=
       match_key (crew_agents b) (keyset E (mongo.agentId task)) true;
     crewai.task_tools := values (search_subordinate_keys (crew_tools b) key) |}.

(** [for key, x in l.items(): d[key] = g key x] on the mapping alone. *)
Definition store_all {X V} (g : Key → X → V) (l : pydict X) (d : pydict V)
  : pydict V :=
  foldl (λ d kx, dict_set d kx.1 (g kx.1 kx.2)) d l.

(** Every key of [crew_models] is a key of [models_models]: true of a
    new builder and kept by every method. *)
Definition models_cover (b : CrewAIBuilder) : Prop :=
  ∀ k, k ∈ keys (crew_models b) → k ∈ keys (models_models b).

(** The body of the [try] statement of [send_it]. *)
Definition send_it_try_block (E : Env) (message : pyvalue) : M unit :=
  match message with
  | PyAgentFinish return_values =>
      match return_values with
      | Some return_values =>
          self <- get_self ;;
          let output := rv_get return_values "output" in
          match message_raises E output with
          | Some e => raise e
          | None =>
              let socket_message :=
                {| room := session_id self;
                   authorName := "system";
                   message :=
                     {| text := output; tokens := 1; first := true |} |} in
              match socket self with
              | Some _ =>
                  external (EvSend MESSAGE socket_message "both")
                    (send_raises E socket_message)
              | None => raise (object_has_no_attribute "socket")
              end
          end
      | None => ret tt
      end
  | PyList parts | PyTuple parts => for_each (send_it E) parts
  | _ => external (EvPrintFailed message) (print_raises E message)
  end.

(** What [logging.exception] adds after a [try] block with the given
    result. *)
Definition logged {A} (r : Result A) : list event :=
  match r with
  | Ok _ => []
  | Raise e => [EvLogException e]
  end.

(** How many times some events connect the socket. *)
Definition count_connects (evs : list event) : nat :=
  length (filter (λ e, is_connect e = true) evs).

(** The first two events of [init_socket] and the line it logs. *)
Definition socket_url_line (E : Env) : event :=
  EvPrint ("Socker URL:   " +:+ SOCKET_URL E).

Definition socket_connect (E : Env) : event :=
  EvConnect (SOCKET_URL E)
    [("x-agent-backend-socket-token", AGENT_BACKEND_SOCKET_TOKEN E)].

Definition connection_error_line (ce : exn) : event :=
  EvLogError ("Connection error occurred: " +:+ exn_str ce).

(** The events a step callback may add: a [send], the print of an
    unprocessed message, a logged exception; in particular no connect and
    no raw [emit]. *)
Definition callback_event (e : event) : Prop :=
  match e with
  | EvSend _ _ _ | EvPrintFailed _ | EvLogException _ => True
  | _ => False
  end.

(** What the claims on [send_it] need of one call: no exception, the
    builder untouched, only the [send] calls of its [AgentFinish] parts,
    no connect. *)
Definition send_it_ok (E : Env) (message : pyvalue) : Prop :=
  ∀ h b,
    let o := send_it E message h b in
    result o = Ok tt
    ∧ self_after o = b
    ∧ sent (emitted o)
        `sublist_of` map (finish_send (session_id b)) (agent_finishes message)
    ∧ count_connects (emitted o) = 0
    ∧ Forall callback_event (emitted o).

(** What one round of the loop of [build_models_with_credentials] stores
    under the model's key, if anything: the client for the type of the
    credential matched for the key. *)
Definition credential_model (credential : mongo.Credentials)
    (model : mongo.Model) : option LLM :=
  match mongo.type credential with
  | mongo.ChatOpenAI =>
      Some (ChatOpenAI (mongo.credentials_api_key credential)
              (model_dump (mongo.model_fields model)
                 ["id"; "credentialId"; "embeddingLength"]))
  | mongo.AzureChatOpenAI =>
      Some (AzureChatOpenAI (mongo.credentials_api_key credential)
              (model_dump (mongo.model_fields model)
                 ["id"; "credentialId"; "embeddingLength"]))
  | mongo.FastEmbed =>
      Some (FastEmbedEmbeddings
              (model_dump (mongo.model_fields model)
                 ["id"; "name"; "embeddingLength"]))
  | mongo.OtherPlatform _ => None
  end.

Definition built_model (b : CrewAIBuilder) (key : Key) (model : mongo.Model)
  : option LLM :=
  match match_key (credentials_models b) key false with
  | Some credential => credential_model credential model
  | None => None
  end.

(** What one round of the loop of [build_tools_and_their_datasources]
    stores under the tool's key, if anything. *)
Definition built_tool (E : Env) (b : CrewAIBuilder) (key : Key)
    (tool : mongo.Tool) : option LangchainTool :=
  match match_key (datasources_models b) key false,
        match_key (crew_models b) key false,
        match_key (models_models b) key false with
  | Some datasource, Some embedding_model, Some embedding_model_model =>
      Some {| tool_name := mongo.name tool;
              tool_description := mongo.description tool;
              tool_store :=
                {| qdrant_client := QDRANT_HOST E;
                   collection_name := mongo.id datasource;
                   embeddings := embedding_model;
                   vector_name := mongo.model_name embedding_model_model |};
              tool_embedding := embedding_model |}
  | _, _, _ => None
  end.

(** The round for [key] reads [model_name] off [None]: a datasource and
    a built model match the key and no model record does. *)
Definition tool_breaks (b : CrewAIBuilder) (key : Key) : bool :=
  match match_key (datasources_models b) key false,
        match_key (crew_models b) key false,
        match_key (models_models b) key false with
  | Some _, Some _, None => true
  | _, _, _ => false
  end.

(** The tools the loop of step 2 gets through before a round breaks. *)
Fixpoint tools_before_break (b : CrewAIBuilder) (l : pydict mongo.Tool)
  : pydict mongo.Tool :=
  match l with
  | [] => []
  | (key, tool) :: rest =>
      if tool_breaks b key then [] else (key, tool) :: tools_before_break b rest
  end.

(** [for key, x in l.items(): if g key x is some v: d[key] = v] on the
    mapping alone. *)
Definition store_some {X V} (g : Key → X → option V) (l : pydict X)
    (d : pydict V) : pydict V :=
  foldl (λ d kx, match g kx.1 kx.2 with
                 | Some v => dict_set d kx.1 v
                 | None => d
                 end) d l.

(** The builder after each of the five steps of [build_crew], on the
    fields alone. *)
Definition after_models (b : CrewAIBuilder) : CrewAIBuilder :=
  set_crew_models b
    (store_some (built_model b) (models_models b) (crew_models b)).

Definition after_tools (E : Env) (b : CrewAIBuilder) : CrewAIBuilder :=
  set_crew_tools b
    (store_some (built_tool E b) (tools_before_break b (tools_models b))
       (crew_tools b)).

Definition after_agents (b : CrewAIBuilder) : CrewAIBuilder :=
  set_crew_agents b
    (store_all (built_agent b) (agents_models b) (crew_agents b)).

Definition after_tasks (E : Env) (b : CrewAIBuilder) : CrewAIBuilder :=
  set_crew_tasks b
    (store_all (built_task E b) (tasks_models b) (crew_tasks b)).

Definition after_crew (b : CrewAIBuilder) : CrewAIBuilder :=
  set_crew b
    (Some {| crewai.agents := values (crew_agents b);
             crewai.tasks := values (crew_tasks b);
             crewai.crew_kwargs :=
               model_dump (mongo.crew_fields (crew_model b))
                 ["id"; "tasks"; "agents"];
             crewai.step_callback := self_send_it |}).

(** The configuration a builder was constructed with. *)
Definition same_configuration (b b' : CrewAIBuilder) : Prop :=
  session_id b' = session_id b
  ∧ crew_model b' = crew_model b
  ∧ agents_models b' = agents_models b
  ∧ tasks_models b' = tasks_models b
  ∧ tools_models b' = tools_models b
  ∧ datasources_models b' = datasources_models b
  ∧ models_models b' = models_models b
  ∧ credentials_models b' = credentials_models b.

(** The messages printed as unprocessed among some events, in order. *)
Definition printed (evs : list event) : list pyvalue :=
  flat_map (λ e, match e with EvPrintFailed m => [m] | _ => [] end) evs.

(** The values inside a message, through lists and tuples, that are
    neither an [AgentFinish] nor a list nor a tuple, left to right. *)
Fixpoint unprocessed_leaves (message : pyvalue) : list pyvalue :=
  match message with
  | PyAgentFinish _ => []
  | PyList parts | PyTuple parts => flat_map unprocessed_leaves parts
  | other => [other]
  end.

(** The [send] calls [send_it] makes for a message on builder [b]: one
    for every [AgentFinish] with [return_values] inside it whose message
    object can be built, in order, provided [b] has its socket. *)
Definition expected_sends (E : Env) (b : CrewAIBuilder) (message : pyvalue)
  : list (SocketEvents * SocketMessage * string) :=
  match socket b with
  | Some _ =>
      map (finish_send (session_id b))
        (filter (λ return_values,
                   message_raises E (rv_get return_values "output") = None)
           (agent_finishes message))
  | None => []
  end.

(** * Sample configuration

    One credential, model, datasource, tool, agent and task, scoped so
    that each lookup of the build steps finds its entry; used to run the
    statements below on a concrete builder. *)

Definition sample_credentials : pydict mongo.Credentials :=
  [({["a1"; "t1"; "m1"; "c1"]},
    {| mongo.type := mongo.FastEmbed; mongo.credentials_api_key := "" |});
   ({["m2"; "c2"]},
    {| mongo.type := mongo.OtherPlatform "ollama";
       mongo.credentials_api_key := "k2" |})].

Definition sample_models : pydict mongo.Model :=
  [({["a1"; "t1"; "m1"]},
    {| mongo.model_name := "fast-bge-small-en";
       mongo.model_fields :=
         [("id", "m1"); ("name", "embedder");
          ("model_name", "fast-bge-small-en")] |});
   ({["m2"]},
    {| mongo.model_name := "llama"; mongo.model_fields := [("id", "m2")] |});
   ({["m3"]},
    {| mongo.model_name := "gpt-4"; mongo.model_fields := [("id", "m3")] |})].

Definition sample_datasources : pydict mongo.Datasource :=
  [({["a1"; "t1"; "d1"]}, {| mongo.id := "d1" |})].

Definition sample_tools : pydict mongo.Tool :=
  [({["a1"; "t1"]},
    {| mongo.name := "search"; mongo.description := "search the docs" |})].

Definition sample_agents : pydict mongo.Agent :=
  [({["a1"]}, {| mongo.agent_fields := [("id", "a1"); ("role", "analyst")] |})].

Definition sample_tasks : pydict mongo.Task :=
  [({["t1"]},
    {| mongo.agentId := "a1";
       mongo.task_fields := [("id", "k1"); ("description", "report")] |})].

Definition sample_builder : CrewAIBuilder :=
  new_builder "s1" {| mongo.crew_fields := [("id", "c"); ("name", "crew")] |}
    sample_agents sample_tasks sample_tools sample_datasources sample_models
    sample_credentials.

Definition sample_finish : pyvalue :=
  PyAgentFinish (Some [("output", PyStr "done")]).

(** An environment in which no external call fails, and one in which the
    socket refuses the connection. *)
Definition sample_env : Env :=
  {| AGENT_BACKEND_SOCKET_TOKEN := "token";
     QDRANT_HOST := "http://qdrant:6333";
     SOCKET_URL := "http://webapp:3000";
     keyset := λ i, {[i]};
     connect_raises := λ _, None;
     emit_raises := λ _, None;
     send_raises := λ _ _, None;
     message_raises := λ _, None;
     print_raises := λ _ _, None;
     kickoff_steps := λ _ _, [PyList [PyStr "thinking"; sample_finish]];
     kickoff_raises := λ _ _, None |}.

Definition connection_refused : exn :=
  {| exn_type := ConnError; exn_str := "Connection refused" |}.

Definition engine_failure : exn :=
  {| exn_type := OtherError "RuntimeError"; exn_str := "task failed" |}.

Definition refusing_env : Env :=
  {| AGENT_BACKEND_SOCKET_TOKEN := "token";
     QDRANT_HOST := "http://qdrant:6333";
     SOCKET_URL := "http://webapp:3000";
     keyset := λ i, {[i]};
     connect_raises := λ _, Some connection_refused;
     emit_raises := λ _, None;
     send_raises := λ _ _, Some connection_refused;
     message_raises := λ _, None;
     print_raises := λ _ _, None;
     kickoff_steps := λ _ _, [sample_finish];
     kickoff_raises := λ _ _, Some engine_failure |}.

Definition sample_tool : LangchainTool :=
  {| tool_name := "search"; tool_description := "search the docs";
     tool_store :=
       {| qdrant_client := "http://qdrant:6333"; collection_name := "d1";
          embeddings := FastEmbedEmbeddings [];
          vector_name := "fast-bge-small-en" |};
     tool_embedding := FastEmbedEmbeddings [] |}.

(** Built tools, one scoped below agent [a1], one keyed by exactly the
    agent's key, one scoped below task [t1]. *)
Definition sample_crew_tools : pydict LangchainTool :=
  [({["a1"; "t1"]}, sample_tool); ({["a1"]}, sample_tool);
   ({["t1"; "x"]}, sample_tool)].

(** The tool that step 2 builds from the sample configuration. *)
Definition sample_tool_built : LangchainTool :=
  {| tool_name := "search"; tool_description := "search the docs";
     tool_store :=
       {| qdrant_client := "http://qdrant:6333"; collection_name := "d1";
          embeddings :=
            FastEmbedEmbeddings [("model_name", "fast-bge-small-en")];
          vector_name := "fast-bge-small-en" |};
     tool_embedding :=
       FastEmbedEmbeddings [("model_name", "fast-bge-small-en")] |}.

(** The sample builder with its socket connected, as [__init__] leaves
    it. *)
Definition sample_connected_builder : CrewAIBuilder :=
  set_socket sample_builder (Some {| connected := true |}).

(** * Properties *)

(** Case analysis on what the environment decides for a call. *)
Ltac case_oracle :=
  match goal with
  | |- context [match ?o with Some _ => _ | None => _ end] => destruct o eqn:?
  end.

(** ** Mappings *)

Lemma issubset_spec (key k : Key) : issubset key k = true ↔ key ⊆ k.
Proof. unfold issubset. apply bool_decide_eq_true. Qed.

Lemma issubset_false (key k : Key) : issubset key k = false ↔ key ⊈ k.
Proof. unfold issubset. apply bool_decide_eq_false. Qed.

Lemma key_eq_spec (key k : Key) : key_eq key k = true ↔ key = k.
Proof. unfold key_eq. apply bool_decide_eq_true. Qed.

Lemma key_eq_false (key k : Key) : key_eq key k = false ↔ key ≠ k.
Proof. unfold key_eq. apply bool_decide_eq_false. Qed.

Lemma key_eq_issubset (key k : Key) :
  key_eq key k = true → issubset key k = true.
Proof. rewrite key_eq_spec, issubset_spec. by intros ->. Qed.

Section DictFacts.
Context {V : Type}.
Implicit Types (d : pydict V) (k : Key) (v : V).

Lemma dict_set_fresh d k v :
  k ∉ keys d → dict_set d k v = d ++ [(k, v)].
Proof.
  induction d as [|[k' v'] d IH]; simpl; [done|].
  intros Hk. apply not_elem_of_cons in Hk as [Hne Hk].
  destruct (key_eq k k') eqn:Heq.
  - apply key_eq_spec in Heq. done.
  - f_equal. by apply IH.
Qed.

Lemma keys_dict_set d k v :
  ∀ k', k' ∈ keys (dict_set d k v) ↔ k' = k ∨ k' ∈ keys d.
Proof.
  intros k0. induction d as [|[k' v'] d IH]; simpl.
  - unfold keys. simpl. rewrite list_elem_of_singleton, elem_of_nil. tauto.
  - destruct (key_eq k k') eqn:Heq.
    + apply key_eq_spec in Heq. subst k'. unfold keys. simpl.
      rewrite !elem_of_cons. tauto.
    + unfold keys in *. simpl. rewrite !elem_of_cons, IH. tauto.
Qed.

Lemma dict_get_set_eq d k v : dict_get (dict_set d k v) k = Some v.
Proof.
  induction d as [|[k' v'] d IH]; simpl.
  - by rewrite (proj2 (key_eq_spec k k)).
  - destruct (key_eq k k') eqn:Heq; simpl; rewrite Heq; done.
Qed.

Lemma dict_get_set_ne d k k0 v :
  k0 ≠ k → dict_get (dict_set d k v) k0 = dict_get d k0.
Proof.
  intros Hne. induction d as [|[k' v'] d IH]; simpl.
  - by rewrite (proj2 (key_eq_false k0 k)).
  - destruct (key_eq k k') eqn:Heq; simpl.
    + apply key_eq_spec in Heq. subst k'.
      by rewrite (proj2 (key_eq_false k0 k)).
    + by rewrite IH.
Qed.

(** What [match_key] finds without [exact], as a list computation. *)
Lemma match_key_head_filter d key :
  match_key d key false = snd <$> head (filter (λ kv, key ⊆ kv.1) d).
Proof.
  induction d as [|[k v] d IH]; [done|].
  rewrite filter_cons. cbn [match_key fst andb]. unfold issubset.
  case_bool_decide as Hs; destruct (decide (key ⊆ k)); done.
Qed.

Lemma match_key_exact_irrelevant d key :
  match_key d key true = match_key d key false.
Proof.
  induction d as [|[k v] d IH]; simpl; [done|].
  destruct (key_eq key k) eqn:Heq.
  - by rewrite (key_eq_issubset _ _ Heq).
  - by rewrite IH.
Qed.

Lemma match_key_Some d key v :
  match_key d key false = Some v ↔
  ∃ pre k post, d = pre ++ (k, v) :: post ∧ key ⊆ k
                ∧ Forall (λ kv, key ⊈ kv.1) pre.
Proof.
  induction d as [|[k0 v0] d IH]; simpl.
  - split; [done|]. intros (pre & k & post & Hd & _).
    by destruct pre.
  - destruct (issubset key k0) eqn:Hs.
    + apply issubset_spec in Hs. split.
      * intros [= <-]. exists [], k0, d. by repeat split.
      * intros (pre & k & post & Hd & Hk & Hpre).
        destruct pre as [|[k1 v1] pre]; simpl in Hd.
        -- by injection Hd as -> -> ->.
        -- injection Hd as -> -> ->. apply Forall_cons in Hpre as [Hn _].
           by destruct Hn.
    + apply issubset_false in Hs. rewrite IH. split.
      * intros (pre & k & post & -> & Hk & Hpre).
        exists ((k0, v0) :: pre), k, post. repeat split; [done|].
        by apply Forall_cons.
      * intros (pre & k & post & Hd & Hk & Hpre).
        destruct pre as [|[k1 v1] pre]; simpl in Hd.
        -- injection Hd as -> -> ->. by destruct Hs.
        -- injection Hd as -> -> ->. apply Forall_cons in Hpre as [_ Hpre].
           by exists pre, k, post.
Qed.

Lemma match_key_None d key :
  match_key d key false = None ↔ ∀ k v, (k, v) ∈ d → key ⊈ k.
Proof.
  induction d as [|[k0 v0] d IH]; simpl.
  - split; [|done]. intros _ k v Hin. by apply elem_of_nil in Hin.
  - destruct (issubset key k0) eqn:Hs.
    + apply issubset_spec in Hs. split; [done|].
      intros H. destruct (H k0 v0); [left|done].
    + apply issubset_false in Hs. rewrite IH. split.
      * intros H k v [[= -> ->]|Hin]%elem_of_cons; eauto.
      * intros H k v Hin. apply (H k v). by right.
Qed.

Lemma search_subordinate_keys_from_filter results d key :
  NoDup (keys results ++ keys d) →
  search_subordinate_keys_from results d key
  = results ++ filter (strictly_below key) d.
Proof.
  revert results. induction d as [|[k v] d IH]; intros results Hnd; simpl.
  - by rewrite app_nil_r.
  - rewrite filter_cons. unfold keys in Hnd. simpl in Hnd.
    apply NoDup_app in Hnd as (Hres & Hdisj & Hd).
    apply NoDup_cons in Hd as [Hk Hd].
    destruct (decide (strictly_below key (k, v))) as [[Hs Hne]|Hn]; simpl in *.
    + rewrite (proj2 (issubset_spec key k) Hs).
      rewrite (proj2 (key_eq_false key k) Hne). simpl.
      rewrite IH.
      * rewrite dict_set_fresh; [by rewrite <-app_assoc|].
        intros Hin. apply (Hdisj k Hin). by left.
      * rewrite dict_set_fresh by (intros Hin; apply (Hdisj k Hin); by left).
        unfold keys. rewrite fmap_app. simpl. rewrite <-app_assoc. simpl.
        apply NoDup_app. repeat split; [done| |by apply NoDup_cons].
        intros x Hx. apply Hdisj. done.
    + assert (issubset key k && negb (key_eq key k) = false) as ->.
      { apply andb_false_iff. destruct (issubset key k) eqn:Hs; [|by left].
        right. apply negb_false_iff, key_eq_spec.
        apply issubset_spec in Hs.
        destruct (decide (key = k)); [done|]. destruct Hn. done. }
      apply IH. apply NoDup_app. repeat split; [done| |done].
      intros x Hx Hx'. apply (Hdisj x Hx). by right.
Qed.

Lemma search_subordinate_keys_filter d key :
  dict_wf d →
  search_subordinate_keys d key = filter (strictly_below key) d.
Proof.
  intros Hwf. unfold search_subordinate_keys.
  by rewrite search_subordinate_keys_from_filter.
Qed.
End DictFacts.

(** ** Effects: what a computation emits, and whether it can raise *)

Lemma bind_Ok {A B} (m : M A) (f : A → M B) h b a :
  result (m h b) = Ok a →
  bind m f h b
  = after_events (emitted (m h b))
      (f a (h ++ emitted (m h b)) (self_after (m h b))).
Proof. intros Hr. unfold bind. by rewrite Hr. Qed.

Lemma bind_Raise {A B} (m : M A) (f : A → M B) h b e :
  result (m h b) = Raise e →
  bind m f h b
  = {| result := Raise e; self_after := self_after (m h b);
       emitted := emitted (m h b) |}.
Proof. intros Hr. unfold bind. by rewrite Hr. Qed.

Lemma external_eq e outcome h b :
  external e outcome h b
  = {| result := match outcome h with Some x => Raise x | None => Ok tt end;
       self_after := b; emitted := [e] |}.
Proof.
  unfold external, bind, get_history, emit_event. simpl.
  by destruct (outcome h).
Qed.

(** Induction over a message and the parts of its lists and tuples. *)
Lemma pyvalue_parts_ind (P : pyvalue → Prop) :
  P PyNone →
  (∀ s, P (PyStr s)) →
  (∀ return_values, P (PyAgentFinish return_values)) →
  (∀ parts, Forall P parts → P (PyList parts)) →
  (∀ parts, Forall P parts → P (PyTuple parts)) →
  (∀ type_name repr, P (PyObject type_name repr)) →
  ∀ message, P message.
Proof.
  intros HNone HStr HFin HList HTuple HObj.
  fix IH 1. intros [| s | rv | parts | parts | t r].
  - exact HNone.
  - apply HStr.
  - apply HFin.
  - apply HList. induction parts as [|p parts IHp]; constructor; [apply IH|done].
  - apply HTuple. induction parts as [|p parts IHp]; constructor; [apply IH|done].
  - apply HObj.
Qed.

(** ** The builder's fields under the loops *)

Lemma set_crew_models_id b : set_crew_models b (crew_models b) = b.
Proof. by destruct b. Qed.

Lemma set_crew_tools_id b : set_crew_tools b (crew_tools b) = b.
Proof. by destruct b. Qed.

Lemma set_crew_agents_id b : set_crew_agents b (crew_agents b) = b.
Proof. by destruct b. Qed.

Lemma set_crew_tasks_id b : set_crew_tasks b (crew_tasks b) = b.
Proof. by destruct b. Qed.

Lemma match_key_Some_key {V} (d : pydict V) key v :
  match_key d key false = Some v → ∃ k, k ∈ keys d ∧ key ⊆ k.
Proof.
  intros (pre & k & post & -> & Hk & _)%match_key_Some.
  exists k. split; [|done]. unfold keys. rewrite fmap_app, elem_of_app.
  right. simpl. by left.
Qed.

Lemma match_key_is_Some {V} (d : pydict V) key k :
  k ∈ keys d → key ⊆ k → is_Some (match_key d key false).
Proof.
  intros Hin Hk. destruct (match_key d key false) eqn:Hm; [by eexists|].
  rewrite match_key_None in Hm.
  apply list_elem_of_fmap in Hin as ([k' v] & -> & Hin).
  by destruct (Hm k' v Hin).
Qed.

(** Step 1 leaves every field but [crew_models] alone, emits nothing but
    its own mark, does not raise, and ends with the keys it had plus the
    model keys whose first matching credential has a supported type. *)
Lemma build_models_with_credentials_spec h b :
  let o := build_models_with_credentials h b in
  result o = Ok tt ∧ emitted o = [EvStep step_models] ∧
  ∃ cm, self_after o = set_crew_models b cm ∧
    ∀ k, k ∈ keys cm ↔
         k ∈ keys (crew_models b) ∨
         (k ∈ keys (models_models b) ∧
          ∃ c, match_key (credentials_models b) k false = Some c
               ∧ supported_platform (mongo.type c)).
Proof.
  unfold build_models_with_credentials, for_each_item.
  match goal with |- context [for_each ?f _] => set (body := f) end.
  assert (Hloop : ∀ l h b,
    let o := for_each body l h b in
    result o = Ok tt ∧ emitted o = [] ∧
    ∃ cm, self_after o = set_crew_models b cm ∧
      ∀ k, k ∈ keys cm ↔
           k ∈ keys (crew_models b) ∨
           (k ∈ keys l ∧
            ∃ c, match_key (credentials_models b) k false = Some c
                 ∧ supported_platform (mongo.type c))).
  { clear h b. induction l as [|[key model] l IH]; intros h b.
    - simpl. repeat split; [].
      exists (crew_models b). rewrite set_crew_models_id. split; [done|].
      intros k. unfold keys at 2. simpl. rewrite elem_of_nil. tauto.
    - assert (Hbody : ∃ cm1,
        body (key, model) h b
        = {| result := Ok tt; self_after := set_crew_models b cm1;
             emitted := [] |}
        ∧ ∀ k, k ∈ keys cm1 ↔
               k ∈ keys (crew_models b) ∨
               (k = key ∧
                ∃ c, match_key (credentials_models b) k false = Some c
                     ∧ supported_platform (mongo.type c))).
      { unfold body, bind, get_self, update_self, ret. simpl.
        destruct (match_key (credentials_models b) key false) as [c|] eqn:Hc.
        - destruct (mongo.type c) eqn:Ht; simpl;
            try (eexists; split; [reflexivity|]; intros k;
                 rewrite keys_dict_set; split;
                 [ intros [->|?]; [right; split; [done|]; exists c;
                                   split; [done|]; rewrite Ht;
                                   unfold supported_platform; tauto
                                  |by left]
                 | intros [?|[-> _]]; [by right|by left] ]).
          exists (crew_models b). rewrite set_crew_models_id. split; [done|].
          intros k. split; [by left|]. intros [?|[-> (c' & Hc' & Hs)]]; [done|].
          rewrite Hc in Hc'. injection Hc' as <-. rewrite Ht in Hs.
          destruct Hs as [?|[?|?]]; discriminate.
        - exists (crew_models b). rewrite set_crew_models_id. split; [done|].
          intros k. split; [by left|]. intros [?|[-> (c' & Hc' & _)]]; [done|].
          rewrite Hc in Hc'. discriminate. }
      destruct Hbody as (cm1 & Hb & Hcm1).
      cbn [for_each]. rewrite (bind_Ok _ _ _ _ tt) by (by rewrite Hb).
      rewrite Hb. cbn [after_events result self_after emitted].
      specialize (IH (h ++ []) (set_crew_models b cm1)).
      destruct IH as (Hr & He & cm & Hs & Hcm).
      cbv zeta. cbn [after_events result self_after emitted].
      rewrite Hr, He, Hs. repeat split; [].
      exists cm. split; [done|]. intros k. rewrite Hcm. simpl.
      rewrite Hcm1. unfold keys at 3. simpl. rewrite elem_of_cons.
      fold (keys l). tauto. }
  cbv zeta. rewrite (bind_Ok _ _ _ _ tt) by done. cbv zeta.
  rewrite (bind_Ok _ _ _ _ b) by done. cbn [after_events get_self emit_event result self_after emitted].
  destruct (Hloop (models_models b) ((h ++ [EvStep step_models]) ++ []) b)
    as (Hr & He & cm & Hs & Hcm).
  rewrite Hr, He, Hs. repeat split; [].
  by exists cm.
Qed.

Lemma store_all_spec {X V} (g : Key → X → V) (l : pydict X) (d : pydict V) :
  (∀ key, key ∈ keys l →
     ∃ x, (key, x) ∈ l ∧ dict_get (store_all g l d) key = Some (g key x))
  ∧ (∀ key, key ∉ keys l → dict_get (store_all g l d) key = dict_get d key).
Proof.
  revert d. induction l as [|[k0 x0] l IH]; intros d.
  - split; [|done]. intros key Hin. by apply elem_of_nil in Hin.
  - unfold store_all. simpl. fold (store_all g l (dict_set d k0 (g k0 x0))).
    destruct (IH (dict_set d k0 (g k0 x0))) as [IHin IHout]. split.
    + intros key Hin. destruct (decide (key ∈ keys l)) as [Hl|Hl].
      * destruct (IHin key Hl) as (x & Hx & Hget).
        exists x. split; [by right|done].
      * unfold keys in Hin. simpl in Hin.
        apply elem_of_cons in Hin as [->|Hin]; [|done].
        exists x0. split; [by left|].
        rewrite IHout by done. apply dict_get_set_eq.
    + intros key Hout. unfold keys in Hout. simpl in Hout.
      apply not_elem_of_cons in Hout as [Hne Hout].
      rewrite IHout by done. by apply dict_get_set_ne.
Qed.

(** Step 2 emits its mark only and touches [crew_tools] only; it raises
    only for a tool that matches a built model and no model record,
    which [models_cover] excludes. *)
Lemma build_tools_and_their_datasources_spec E h b :
  let o := build_tools_and_their_datasources E h b in
  emitted o = [EvStep step_tools]
  ∧ (∃ ct, self_after o = set_crew_tools b ct)
  ∧ (models_cover b → result o = Ok tt).
Proof.
  unfold build_tools_and_their_datasources, for_each_item.
  match goal with |- context [for_each ?f _] => set (body := f) end.
  assert (Hloop : ∀ l h b,
    let o := for_each body l h b in
    emitted o = []
    ∧ (∃ ct, self_after o = set_crew_tools b ct)
    ∧ (models_cover b → result o = Ok tt)).
  { clear h b. induction l as [|[key tool] l IH]; intros h b.
    - simpl. repeat split; [].
      exists (crew_tools b). by rewrite set_crew_tools_id.
    - assert (Hbody : ∃ r ct1,
        body (key, tool) h b
        = {| result := r; self_after := set_crew_tools b ct1; emitted := [] |}
        ∧ (models_cover b → r = Ok tt)).
      { unfold body, bind, get_self, update_self, ret, raise. simpl.
        destruct (match_key (datasources_models b) key false) as [ds|];
          [|exists (Ok tt), (crew_tools b); by rewrite set_crew_tools_id].
        destruct (match_key (crew_models b) key false) as [em|] eqn:Hem;
          [|exists (Ok tt), (crew_tools b); by rewrite set_crew_tools_id].
        destruct (match_key (models_models b) key false) as [mm|] eqn:Hmm.
        - by eexists (Ok tt), _.
        - eexists _, (crew_tools b). rewrite set_crew_tools_id.
          split; [done|]. intros Hcover.
          apply match_key_Some_key in Hem as (k & Hk & Hsub).
          destruct (match_key_is_Some (models_models b) key k (Hcover k Hk) Hsub)
            as [mm Hmm']. congruence. }
      destruct Hbody as (r & ct1 & Hb & Hr1).
      cbn [for_each]. cbv zeta. destruct r as [[]|e].
      + rewrite (bind_Ok _ _ _ _ tt) by (by rewrite Hb).
        rewrite Hb. cbv zeta. cbn [after_events result self_after emitted].
        destruct (IH (h ++ []) (set_crew_tools b ct1)) as (He & [ct Hs] & Hr).
        rewrite He, Hs. repeat split; [by exists ct|].
        intros Hcover. by apply Hr.
      + rewrite (bind_Raise _ _ _ _ e) by (by rewrite Hb).
        rewrite Hb. cbn [after_events result self_after emitted].
        repeat split; [by exists ct1|done]. }
  cbv zeta. rewrite (bind_Ok _ _ _ _ tt) by done. cbv zeta.
  rewrite (bind_Ok _ _ _ _ b) by done.
  cbn [after_events get_self emit_event result self_after emitted].
  destruct (Hloop (tools_models b) ((h ++ [EvStep step_tools]) ++ []) b)
    as (He & Hs & Hr).
  by rewrite He.
Qed.

(** Steps 3 and 4 in closed form. *)
Lemma build_agents_eq h b :
  build_agents h b
  = {| result := Ok tt;
       self_after :=
         set_crew_agents b
           (store_all (built_agent b) (agents_models b) (crew_agents b));
       emitted := [EvStep step_agents] |}.
Proof.
  unfold build_agents, for_each_item.
  match goal with |- context [for_each ?f _] => set (body := f) end.
  assert (Hloop : ∀ l h b0,
    crew_models b0 = crew_models b → crew_tools b0 = crew_tools b →
    for_each body l h b0
    = {| result := Ok tt;
         self_after :=
           set_crew_agents b0 (store_all (built_agent b) l (crew_agents b0));
         emitted := [] |}).
  { clear h. induction l as [|[key agent] l IH]; intros h b0 Hm Ht.
    - simpl. unfold ret, store_all. simpl. by rewrite set_crew_agents_id.
    - cbn [for_each]. rewrite (bind_Ok _ _ _ _ tt) by done. cbv zeta.
      rewrite IH by done.
      unfold body, bind, get_self, update_self. simpl.
      unfold store_all, built_agent. simpl. by rewrite Hm, Ht. }
  rewrite (bind_Ok _ _ _ _ tt) by done. cbv zeta.
  rewrite (bind_Ok _ _ _ _ b) by done. cbv zeta.
  cbn [after_events get_self emit_event result self_after emitted].
  by rewrite Hloop.
Qed.

Lemma build_tasks_eq E h b :
  build_tasks E h b
  = {| result := Ok tt;
       self_after :=
         set_crew_tasks b
           (store_all (built_task E b) (tasks_models b) (crew_tasks b));
       emitted := [EvStep step_tasks] |}.
Proof.
  unfold build_tasks, for_each_item.
  match goal with |- context [for_each ?f _] => set (body := f) end.
  assert (Hloop : ∀ l h b0,
    crew_agents b0 = crew_agents b → crew_tools b0 = crew_tools b →
    for_each body l h b0
    = {| result := Ok tt;
         self_after :=
           set_crew_tasks b0 (store_all (built_task E b) l (crew_tasks b0));
         emitted := [] |}).
  { clear h. induction l as [|[key task] l IH]; intros h b0 Hm Ht.
    - simpl. unfold ret, store_all. simpl. by rewrite set_crew_tasks_id.
    - cbn [for_each]. rewrite (bind_Ok _ _ _ _ tt) by done. cbv zeta.
      rewrite IH by done.
      unfold body, bind, get_self, update_self. simpl.
      unfold store_all, built_task. simpl. by rewrite Hm, Ht. }
  rewrite (bind_Ok _ _ _ _ tt) by done. cbv zeta.
  rewrite (bind_Ok _ _ _ _ b) by done. cbv zeta.
  cbn [after_events get_self emit_event result self_after emitted].
  by rewrite Hloop.
Qed.

(** ** The claims on the lookups *)

(** C1: without [exact], [match_key] returns the value of the first entry,
    in iteration order, whose key-set contains the query key-set, and
    returns [None] exactly when no entry's key-set contains it. *)
Theorem match_key_first_superset {V} (elements_dict : pydict V) (key : Key) :
  match_key elements_dict key false
  = snd <$> head (filter (λ kv, key ⊆ kv.1) elements_dict)
  ∧ (∀ v, match_key elements_dict key false = Some v ↔
          ∃ before k after,
            elements_dict = before ++ (k, v) :: after ∧ key ⊆ k
            ∧ Forall (λ kv, key ⊈ kv.1) before)
  ∧ (match_key elements_dict key false = None ↔
     ∀ k v, (k, v) ∈ elements_dict → key ⊈ k).
Proof.
  split; [apply match_key_head_filter|].
  split; [intros v; apply match_key_Some|apply match_key_None].
Qed.

(** C2: [match_key] returns the same with [exact=True] as with
    [exact=False]; an entry whose key-set is the query plus anything is
    returned under [exact=True] too, and [build_agents], which passes
    [exact=True], gives each agent the model the plain subset match finds. *)
Theorem match_key_exact_flag_unused {V} (elements_dict : pydict V) (key : Key) :
  match_key elements_dict key true = match_key elements_dict key false
  ∧ (∀ (extra : Key) (v : V) (rest : pydict V),
       match_key ((key ∪ extra, v) :: rest) key true = Some v)
  ∧ (∀ h b agent_key,
       agent_key ∈ keys (agents_models b) →
       ∃ a, dict_get (crew_agents (self_after (build_agents h b))) agent_key
            = Some a
            ∧ crewai.llm a = match_key (crew_models b) agent_key false).
Proof.
  split; [apply match_key_exact_irrelevant|]. split.
  - intros extra v rest. simpl.
    assert (issubset key (key ∪ extra) = true) as ->
      by (apply issubset_spec; set_solver).
    by destruct (key_eq key (key ∪ extra)).
  - intros h b agent_key Hin. rewrite build_agents_eq. simpl.
    destruct (store_all_spec (built_agent b) (agents_models b) (crew_agents b))
      as [Hs _].
    destruct (Hs agent_key Hin) as (x & _ & Hget).
    eexists. split; [exact Hget|]. simpl.
    apply match_key_exact_irrelevant.
Qed.

Lemma match_key_exact_flag_unused_witness :
  match_key [({["a"; "b"]}, 1); ({["a"]}, 2)] {["a"]} true = Some 1
  ∧ ∃ a, dict_get (crew_agents (self_after
             (build_agents [] (set_crew_models sample_builder
                [({["a1"; "m"]}, FastEmbedEmbeddings [])])))) {["a1"]} = Some a
         ∧ crewai.llm a
           = match_key [({["a1"; "m"]}, FastEmbedEmbeddings [])] {["a1"]} false.
Proof.
  split.
  - apply (proj1 (proj2 (match_key_exact_flag_unused [] {["a"]})) {["b"]} 1).
  - apply (proj2 (proj2 (match_key_exact_flag_unused (V:=nat) [] ∅)) []
             (set_crew_models sample_builder
                [({["a1"; "m"]}, FastEmbedEmbeddings [])]) {["a1"]}).
    vm_compute. by left.
Defined.

(** C3: [search_subordinate_keys] returns exactly the entries whose
    key-set contains the query key-set and differs from it, so never an
    entry keyed by the query itself; [build_agents] and [build_tasks]
    attach the values of exactly those entries of [crew_tools] as the
    tools of each agent and of each task. *)
Theorem search_subordinate_keys_strict :
  (∀ V (elements_dict : pydict V) (key : Key),
     dict_wf elements_dict →
     search_subordinate_keys elements_dict key
     = filter (strictly_below key) elements_dict
     ∧ (∀ k v, (k, v) ∈ search_subordinate_keys elements_dict key ↔
               (k, v) ∈ elements_dict ∧ key ⊆ k ∧ key ≠ k)
     ∧ (∀ v, (key, v) ∉ search_subordinate_keys elements_dict key))
  ∧ (∀ h b key,
       dict_wf (crew_tools b) → key ∈ keys (agents_models b) →
       ∃ a, dict_get (crew_agents (self_after (build_agents h b))) key = Some a
            ∧ crewai.agent_tools a
              = values (filter (strictly_below key) (crew_tools b)))
  ∧ (∀ E h b key,
       dict_wf (crew_tools b) → key ∈ keys (tasks_models b) →
       ∃ t, dict_get (crew_tasks (self_after (build_tasks E h b))) key = Some t
            ∧ crewai.task_tools t
              = values (filter (strictly_below key) (crew_tools b))).
Proof.
  split; [|split].
  - intros V d key Hwf. rewrite search_subordinate_keys_filter by done.
    split; [done|]. split.
    + intros k v. rewrite list_elem_of_filter. unfold strictly_below. simpl.
      tauto.
    + intros v Hin. apply list_elem_of_filter in Hin as [[_ Hne] _]. done.
  - intros h b key Hwf Hin. rewrite build_agents_eq. simpl.
    destruct (store_all_spec (built_agent b) (agents_models b) (crew_agents b))
      as [Hs _].
    destruct (Hs key Hin) as (x & _ & Hget).
    eexists. split; [exact Hget|]. simpl.
    by rewrite search_subordinate_keys_filter.
  - intros E h b key Hwf Hin. rewrite build_tasks_eq. simpl.
    destruct (store_all_spec (built_task E b) (tasks_models b) (crew_tasks b))
      as [Hs _].
    destruct (Hs key Hin) as (x & _ & Hget).
    eexists. split; [exact Hget|]. simpl.
    by rewrite search_subordinate_keys_filter.
Qed.

Lemma search_subordinate_keys_strict_witness :
  search_subordinate_keys sample_crew_tools {["a1"]}
  = filter (strictly_below {["a1"]}) sample_crew_tools
  ∧ (∃ a, dict_get (crew_agents (self_after
            (build_agents [] (set_crew_tools sample_builder sample_crew_tools))))
            {["a1"]} = Some a
          ∧ crewai.agent_tools a
            = values (filter (strictly_below {["a1"]}) sample_crew_tools))
  ∧ (∃ t, dict_get (crew_tasks (self_after
            (build_tasks sample_env []
               (set_crew_tools sample_builder sample_crew_tools))))
            {["t1"]} = Some t
          ∧ crewai.task_tools t
            = values (filter (strictly_below {["t1"]}) sample_crew_tools)).
Proof.
  assert (Hwf : dict_wf sample_crew_tools).
  { unfold dict_wf. apply (bool_decide_unpack _). vm_compute. exact I. }
  destruct search_subordinate_keys_strict as (Hsearch & Hagents & Htasks).
  split; [|split].
  - apply (Hsearch _ sample_crew_tools {["a1"]} Hwf).
  - apply (Hagents [] (set_crew_tools sample_builder sample_crew_tools)
             {["a1"]} Hwf).
    vm_compute. by left.
  - apply (Htasks sample_env []
             (set_crew_tools sample_builder sample_crew_tools) {["t1"]} Hwf).
    vm_compute. by left.
Defined.

(** ** The build steps *)

Lemma models_cover_new session_id crew agents tasks tools datasources models
    credentials :
  models_cover (new_builder session_id crew agents tasks tools datasources
                  models credentials).
Proof. intros k Hk. by apply elem_of_nil in Hk. Qed.

Lemma models_cover_after_models h b :
  models_cover b → models_cover (self_after (build_models_with_credentials h b)).
Proof.
  intros Hcover.
  destruct (build_models_with_credentials_spec h b) as (_ & _ & cm & -> & Hcm).
  intros k. simpl. rewrite Hcm. intros [Hk|[Hk _]]; [by apply Hcover|done].
Qed.

(** C4: [build_crew] runs the five steps once each and in order: models
    with credentials, tools and their datasources, agents, tasks, and
    the construction of the crew from the built agents and tasks with
    [send_it] installed as the step callback. *)
Theorem build_crew_five_steps E h b (Hcover : models_cover b) :
  let o1 := build_models_with_credentials h b in
  let h1 := h ++ emitted o1 in
  let o2 := build_tools_and_their_datasources E h1 (self_after o1) in
  let h2 := h1 ++ emitted o2 in
  let o3 := build_agents h2 (self_after o2) in
  let h3 := h2 ++ emitted o3 in
  let o4 := build_tasks E h3 (self_after o3) in
  let h4 := h3 ++ emitted o4 in
  let o5 := build_crew_object h4 (self_after o4) in
  let o := build_crew E h b in
  result o = Ok tt
  ∧ emitted o = [EvStep step_models; EvStep step_tools; EvStep step_agents;
                 EvStep step_tasks; EvStep step_crew]
  ∧ self_after o = self_after o5
  ∧ crew (self_after o)
    = Some {| crewai.agents := values (crew_agents (self_after o3));
              crewai.tasks := values (crew_tasks (self_after o4));
              crewai.crew_kwargs :=
                model_dump (mongo.crew_fields (crew_model b))
                  ["id"; "tasks"; "agents"];
              crewai.step_callback := self_send_it |}.
Proof.
  cbv zeta. unfold build_crew.
  destruct (build_models_with_credentials_spec h b) as (Hr1 & He1 & cm & Hs1 & _).
  pose proof (models_cover_after_models h b Hcover) as Hcover1.
  rewrite (bind_Ok _ _ _ _ tt) by done. cbv zeta.
  set (o1 := build_models_with_credentials h b) in *.
  destruct (build_tools_and_their_datasources_spec E (h ++ emitted o1)
              (self_after o1)) as (He2 & [ct Hs2] & Hr2).
  specialize (Hr2 Hcover1).
  rewrite (bind_Ok _ _ _ _ tt) by done. cbv zeta.
  set (o2 := build_tools_and_their_datasources E (h ++ emitted o1)
               (self_after o1)) in *.
  rewrite !build_agents_eq, !build_tasks_eq.
  rewrite (bind_Ok _ _ _ _ tt) by (by rewrite build_agents_eq).
  cbv zeta. rewrite !build_agents_eq. cbn [after_events result self_after emitted].
  rewrite (bind_Ok _ _ _ _ tt) by (by rewrite build_tasks_eq).
  cbv zeta. rewrite !build_tasks_eq. cbn [after_events result self_after emitted].
  unfold build_crew_object.
  rewrite !(bind_Ok _ _ _ _ tt) by done. cbv zeta.
  cbn [after_events emit_event update_self result self_after emitted].
  rewrite He1, He2. split; [done|]. split; [done|]. split; [done|].
  rewrite Hs2, Hs1. reflexivity.
Qed.

Lemma build_crew_five_steps_witness :
  let o := build_crew sample_env [] sample_builder in
  result o = Ok tt
  ∧ emitted o = [EvStep step_models; EvStep step_tools; EvStep step_agents;
                 EvStep step_tasks; EvStep step_crew].
Proof.
  pose proof (build_crew_five_steps sample_env [] sample_builder
                (models_cover_new _ _ _ _ _ _ _ _)) as H.
  cbv zeta in H. destruct H as (Hr & He & _). by split.
Defined.

(** C5: on a builder whose [crew_models] is still empty,
    [build_models_with_credentials] ends with an entry for a key exactly
    when the key is a model key, some credential subset-matches it and
    the matched credential's type is ChatOpenAI, AzureChatOpenAI or
    FastEmbed; the other models are passed over without an exception or
    a log line. *)
Theorem build_models_with_credentials_entries h b
    (Hempty : crew_models b = []) :
  let o := build_models_with_credentials h b in
  result o = Ok tt
  ∧ emitted o = [EvStep step_models]
  ∧ ∀ key,
      key ∈ keys (crew_models (self_after o)) ↔
      key ∈ keys (models_models b)
      ∧ ∃ credential,
          match_key (credentials_models b) key false = Some credential
          ∧ (mongo.type credential = mongo.ChatOpenAI
             ∨ mongo.type credential = mongo.AzureChatOpenAI
             ∨ mongo.type credential = mongo.FastEmbed).
Proof.
  destruct (build_models_with_credentials_spec h b) as (Hr & He & cm & Hs & Hcm).
  cbv zeta. rewrite Hr, He, Hs. split; [done|]. split; [done|].
  intros key. simpl. rewrite Hcm, Hempty. unfold keys at 2. simpl.
  rewrite elem_of_nil. unfold supported_platform. tauto.
Qed.

Lemma build_models_with_credentials_entries_witness :
  let o := build_models_with_credentials [] sample_builder in
  result o = Ok tt
  ∧ emitted o = [EvStep step_models]
  ∧ ∀ key,
      key ∈ keys (crew_models (self_after o)) ↔
      key ∈ keys (models_models sample_builder)
      ∧ ∃ credential,
          match_key (credentials_models sample_builder) key false
          = Some credential
          ∧ (mongo.type credential = mongo.ChatOpenAI
             ∨ mongo.type credential = mongo.AzureChatOpenAI
             ∨ mongo.type credential = mongo.FastEmbed).
Proof.
  apply (build_models_with_credentials_entries [] sample_builder).
  reflexivity.
Defined.

(** ** The step callback *)

Lemma send_it_unfold E message :
  send_it E message
  = try_except (send_it_try_block E message) is_Exception
      (λ e, emit_event (EvLogException e)).
Proof. by destruct message. Qed.

(** [try: body except Exception as e: logging.exception(e)] *)
Lemma try_except_log (body : M unit) h b :
  let o := try_except body is_Exception (λ e, emit_event (EvLogException e)) h b in
  result o = Ok tt
  ∧ self_after o = self_after (body h b)
  ∧ emitted o = emitted (body h b) ++ logged (result (body h b)).
Proof.
  unfold try_except. destruct (result (body h b)) as [[]|e] eqn:Hr; simpl.
  - by rewrite Hr, app_nil_r.
  - done.
Qed.

Lemma sent_app evs evs' : sent (evs ++ evs') = sent evs ++ sent evs'.
Proof. unfold sent. apply flat_map_app. Qed.

Lemma sent_logged {A} (r : Result A) : sent (logged r) = [].
Proof. by destruct r. Qed.

Lemma count_connects_app evs evs' :
  count_connects (evs ++ evs') = count_connects evs + count_connects evs'.
Proof. unfold count_connects. by rewrite filter_app, length_app. Qed.

Section SendIt.
Variable E : Env.

Lemma for_each_send_it_ok parts :
  Forall (send_it_ok E) parts →
  ∀ h b,
    let o := for_each (send_it E) parts h b in
    result o = Ok tt
    ∧ self_after o = b
    ∧ sent (emitted o)
        `sublist_of` map (finish_send (session_id b))
                       (flat_map agent_finishes parts)
    ∧ count_connects (emitted o) = 0
    ∧ Forall callback_event (emitted o).
Proof.
  induction 1 as [|p parts Hp _ IH]; intros h b; cbv zeta.
  - simpl. by repeat split.
  - destruct (Hp h b) as (Hr & Hs & Hsent & Hc & Hev).
    cbn [for_each]. rewrite (bind_Ok _ _ _ _ tt) by done. cbv zeta.
    cbn [after_events result self_after emitted]. rewrite Hs.
    destruct (IH (h ++ emitted (send_it E p h b)) b)
      as (Hr' & Hs' & Hsent' & Hc' & Hev').
    split; [done|]. split; [done|]. split; [|split].
    + rewrite sent_app. simpl. rewrite map_app. by apply sublist_app.
    + rewrite count_connects_app. lia.
    + by apply Forall_app.
Qed.

Lemma send_it_spec message : send_it_ok E message.
Proof.
  induction message as [| s | rv | parts IH | parts IH | t r]
    using pyvalue_parts_ind;
    intros h b; cbv zeta; rewrite send_it_unfold;
    match goal with |- context [try_except ?body _ _ _ _] =>
      destruct (try_except_log body h b) as (Hr & Hs & He) end;
    rewrite Hr, Hs, He, sent_app, sent_logged, app_nil_r, count_connects_app,
      Forall_app;
    (split; [done|]).
  - simpl. case_oracle; repeat split; by repeat constructor.
  - simpl. case_oracle; repeat split; by repeat constructor.
  - destruct rv as [rv|]; simpl; [|repeat split; by repeat constructor].
    destruct (message_raises E (rv_get rv "output")); simpl;
      [repeat split; by repeat constructor|].
    destruct (socket b); simpl; [|repeat split; by repeat constructor].
    case_oracle; simpl; repeat split; by repeat constructor.
  - cbn [send_it_try_block agent_finishes].
    destruct (for_each_send_it_ok parts IH h b) as (Hr' & Hs' & Hsent & Hc & Hev).
    rewrite Hr', Hc. repeat split; by repeat constructor.
  - cbn [send_it_try_block agent_finishes].
    destruct (for_each_send_it_ok parts IH h b) as (Hr' & Hs' & Hsent & Hc & Hev).
    rewrite Hr', Hc. repeat split; by repeat constructor.
  - simpl. case_oracle; repeat split; by repeat constructor.
Qed.
End SendIt.

Lemma for_each_send_it_cons E p parts h b :
  for_each (send_it E) (p :: parts) h b
  = after_events (emitted (send_it E p h b))
      (for_each (send_it E) parts (h ++ emitted (send_it E p h b)) b).
Proof.
  destruct (send_it_spec E p h b) as (Hr & Hs & _).
  cbn [for_each]. rewrite (bind_Ok _ _ _ _ tt) by done. by rewrite Hs.
Qed.

Lemma for_each_send_it_Ok E parts h b :
  result (for_each (send_it E) parts h b) = Ok tt.
Proof.
  apply (for_each_send_it_ok E parts
           (proj2 (Forall_forall _ _) (λ m _, send_it_spec E m)) h b).
Qed.

Lemma send_it_list_events E parts h b :
  emitted (send_it E (PyList parts) h b)
  = emitted (for_each (send_it E) parts h b)
  ∧ emitted (send_it E (PyTuple parts) h b)
    = emitted (for_each (send_it E) parts h b).
Proof.
  split; rewrite send_it_unfold;
    match goal with |- context [try_except ?body _ _ _ _] =>
      destruct (try_except_log body h b) as (_ & _ & ->) end;
    cbn [send_it_try_block]; rewrite for_each_send_it_Ok; apply app_nil_r.
Qed.

(** The [send] calls of [send_it], exactly. *)
Lemma send_it_sent_exact E message h b :
  sent (emitted (send_it E message h b)) = expected_sends E b message.
Proof.
  revert h.
  induction message as [| s | rv | parts IH | parts IH | t r]
    using pyvalue_parts_ind; intros h;
    try (rewrite ?(proj1 (send_it_list_events E _ _ _)),
           ?(proj2 (send_it_list_events E _ _ _));
         unfold expected_sends in *; cbn [agent_finishes]; revert h;
         induction IH as [|p parts Hp _ IHparts]; intros h;
           [by destruct (socket b)|];
         rewrite for_each_send_it_cons; cbn [after_events emitted flat_map];
         rewrite sent_app, Hp, IHparts, filter_app, map_app;
         by destruct (socket b));
    rewrite send_it_unfold;
    match goal with |- context [try_except ?body _ _ _ _] =>
      destruct (try_except_log body h b) as (_ & _ & ->) end;
    rewrite sent_app, sent_logged, app_nil_r; cbn [send_it_try_block];
    unfold expected_sends; cbn [agent_finishes];
    try (rewrite external_eq; by destruct (socket b)).
  destruct rv as [rv|]; [|by destruct (socket b)].
  rewrite (bind_Ok _ _ _ _ b) by done. cbv zeta.
  cbn [after_events get_self result self_after emitted app].
  rewrite filter_cons, filter_nil.
  destruct (message_raises E (rv_get rv "output")) as [e|] eqn:Hmsg.
  - destruct (decide (Some e = None)); [done|]. by destruct (socket b).
  - destruct (decide (@None exn = None)); [|done].
    destruct (socket b); [|done]. by rewrite external_eq.
Qed.

(** ** The socket *)

(** [init_socket] case by case: the connect fails, the join fails, or
    both succeed. *)
Lemma init_socket_eq E h b :
  init_socket E h b
  = match connect_raises E (h ++ [socket_url_line E]) with
    | Some e =>
        {| result := Raise e;
           self_after := set_socket b (Some {| connected := false |});
           emitted :=
             [socket_url_line E; socket_connect E]
             ++ (if is_ConnError e then [connection_error_line e] else []) |}
    | None =>
        match emit_raises E (h ++ [socket_url_line E; socket_connect E]) with
        | Some e =>
            {| result := Raise e;
               self_after := set_socket b (Some {| connected := true |});
               emitted :=
                 [socket_url_line E; socket_connect E;
                  EvEmit "join_room" ("_" +:+ session_id b)]
                 ++ (if is_ConnError e then [connection_error_line e] else []) |}
        | None =>
            {| result := Ok tt;
               self_after := set_socket b (Some {| connected := true |});
               emitted :=
                 [socket_url_line E; socket_connect E;
                  EvEmit "join_room" ("_" +:+ session_id b)] |}
        end
    end.
Proof.
  unfold init_socket.
  match goal with |- try_except ?m _ _ _ _ = _ => set (body := m) end.
  assert (Hbody : body h b
    = match connect_raises E (h ++ [socket_url_line E]) with
      | Some e =>
          {| result := Raise e;
             self_after := set_socket b (Some {| connected := false |});
             emitted := [socket_url_line E; socket_connect E] |}
      | None =>
          {| result :=
               match emit_raises E (h ++ [socket_url_line E; socket_connect E])
               with Some e => Raise e | None => Ok tt end;
             self_after := set_socket b (Some {| connected := true |});
             emitted :=
               [socket_url_line E; socket_connect E;
                EvEmit "join_room" ("_" +:+ session_id b)] |}
      end).
  { unfold body. cbv zeta.
    rewrite (bind_Ok _ _ _ _ tt) by done.
    cbn [after_events update_self result self_after emitted].
    rewrite (bind_Ok _ _ _ _ tt) by done.
    cbn [after_events emit_event result self_after emitted].
    rewrite !app_nil_r. fold (socket_url_line E). fold (socket_connect E).
    destruct (connect_raises E (h ++ [socket_url_line E])) as [e|] eqn:Hc.
    - rewrite (bind_Raise _ _ _ _ e) by (by rewrite external_eq, Hc).
      by rewrite external_eq.
    - rewrite (bind_Ok _ _ _ _ tt) by (by rewrite external_eq, Hc).
      rewrite external_eq.
      cbn [after_events update_self result self_after emitted].
      rewrite (bind_Ok _ _ _ _ tt) by done.
      cbn [after_events update_self result self_after emitted].
      rewrite (bind_Ok _ _ _ _ (set_socket b (Some {| connected := true |})))
        by done.
      cbn [after_events get_self result self_after emitted].
      rewrite external_eq.
      cbn [after_events result self_after emitted app].
      rewrite !app_nil_r, <-app_assoc. reflexivity. }
  unfold try_except. rewrite Hbody.
  destruct (connect_raises E (h ++ [socket_url_line E])) as [e|].
  { cbn [result]. by destruct (is_ConnError e). }
  cbn [result].
  destruct (emit_raises E (h ++ [socket_url_line E; socket_connect E])) as [e|];
    [|done].
  by destruct (is_ConnError e).
Qed.

(** [build_crew] from any builder: it emits step marks only, however far
    it gets, and assigns to the [crew_*] fields only. *)
Lemma build_crew_quiet E h b :
  let o := build_crew E h b in
  count_connects (emitted o) = 0 ∧ sent (emitted o) = []
  ∧ socket (self_after o) = socket b.
Proof.
  cbv zeta. unfold build_crew.
  destruct (build_models_with_credentials_spec h b) as (Hr1 & He1 & cm & Hs1 & _).
  rewrite (bind_Ok _ _ _ _ tt) by done. cbv zeta.
  set (o1 := build_models_with_credentials h b) in *.
  destruct (build_tools_and_their_datasources_spec E (h ++ emitted o1)
              (self_after o1)) as (He2 & [ct Hs2] & _).
  cbn [after_events result self_after emitted].
  destruct (result (build_tools_and_their_datasources E (h ++ emitted o1)
                      (self_after o1))) as [[]|e] eqn:Hr2.
  - rewrite (bind_Ok _ _ _ _ tt) by done. cbv zeta.
    rewrite (bind_Ok _ _ _ _ tt) by (by rewrite build_agents_eq).
    cbv zeta. rewrite !build_agents_eq. cbn [after_events result self_after emitted].
    rewrite (bind_Ok _ _ _ _ tt) by (by rewrite build_tasks_eq).
    cbv zeta. rewrite !build_tasks_eq. cbn [after_events result self_after emitted].
    unfold build_crew_object.
    rewrite !(bind_Ok _ _ _ _ tt) by done. cbv zeta.
    cbn [after_events emit_event update_self result self_after emitted].
    rewrite He2, Hs2, He1, Hs1. by repeat split.
  - rewrite (bind_Raise _ _ _ _ e) by done.
    cbn [after_events result self_after emitted].
    rewrite He2, Hs2, He1, Hs1. by repeat split.
Qed.

(** [models_cover] holds of a builder from its construction on. *)
Lemma models_cover_init E session_id crew agents tasks tools datasources models
    credentials h :
  models_cover (self_after (__init__ E session_id crew agents tasks tools
                              datasources models credentials h)).
Proof.
  unfold __init__. rewrite init_socket_eq.
  repeat case_oracle; intros k Hk; by apply elem_of_nil in Hk.
Qed.

Lemma models_cover_build_crew E h b :
  models_cover b → models_cover (self_after (build_crew E h b)).
Proof.
  intros Hcover. unfold build_crew.
  pose proof (models_cover_after_models h b Hcover) as Hcover1.
  destruct (build_models_with_credentials_spec h b) as (Hr1 & _).
  rewrite (bind_Ok _ _ _ _ tt) by done. cbv zeta.
  set (o1 := build_models_with_credentials h b) in *.
  destruct (build_tools_and_their_datasources_spec E (h ++ emitted o1)
              (self_after o1)) as (_ & [ct Hs2] & Hr2).
  specialize (Hr2 Hcover1).
  rewrite (bind_Ok _ _ _ _ tt) by done. cbv zeta.
  rewrite (bind_Ok _ _ _ _ tt) by (by rewrite build_agents_eq).
  cbv zeta. rewrite !build_agents_eq. cbn [after_events result self_after emitted].
  rewrite (bind_Ok _ _ _ _ tt) by (by rewrite build_tasks_eq).
  cbv zeta. rewrite !build_tasks_eq. cbn [after_events result self_after emitted].
  unfold build_crew_object.
  rewrite !(bind_Ok _ _ _ _ tt) by done. cbv zeta.
  cbn [after_events emit_event update_self result self_after emitted].
  rewrite Hs2. exact Hcover1.
Qed.

(** ** Running the crew *)

Lemma kickoff_spec E c h b :
  let o := kickoff E c h b in
  result o = match kickoff_raises E c h with
             | Some e => Raise e
             | None => Ok tt
             end
  ∧ self_after o = b
  ∧ count_connects (emitted o) = 0.
Proof.
  cbv zeta. unfold kickoff.
  rewrite (bind_Ok _ _ _ _ h) by done. cbv zeta.
  rewrite (bind_Ok _ _ _ _ tt) by done. cbv zeta.
  cbn [after_events get_history emit_event result self_after emitted].
  assert (Hcall : call_callback E (crewai.step_callback c) = send_it E)
    by (by destruct (crewai.step_callback c)).
  rewrite Hcall.
  pose proof (for_each_send_it_ok E (kickoff_steps E c h)
                (proj2 (Forall_forall _ _) (λ m _, send_it_spec E m))) as Hloop.
  match goal with |- context [bind (for_each _ _) _ ?h' ?b'] =>
    destruct (Hloop h' b') as (Hr & Hs & _ & Hc & _)
  end.
  rewrite (bind_Ok _ _ _ _ tt) by done.
  cbn [after_events result self_after emitted]. rewrite Hs.
  rewrite !count_connects_app, Hc.
  destruct (kickoff_raises E c h); by repeat split.
Qed.

(** [run_crew] returns normally and logs what its [try] block raised. *)
Lemma run_crew_never_raises_aux E h b :
  let o := run_crew E h b in
  result o = Ok tt
  ∧ self_after o = b
  ∧ match crew b with
    | Some c =>
        emitted o = emitted (kickoff E c h b) ++ logged (result (kickoff E c h b))
        ∧ result (kickoff E c h b)
          = match kickoff_raises E c h with
            | Some e => Raise e
            | None => Ok tt
            end
    | None => emitted o = [EvLogException (NoneType_has_no_attribute "kickoff")]
    end.
Proof.
  cbv zeta. unfold run_crew.
  match goal with |- context [try_except ?body _ _ _ _] =>
    destruct (try_except_log body h b) as (Hr & Hs & He) end.
  rewrite Hr, Hs, He. split; [done|].
  rewrite (bind_Ok _ _ _ _ b) by done. cbv zeta.
  cbn [after_events get_self result self_after emitted]. rewrite app_nil_r.
  destruct (crew b) as [c|]; [|done].
  destruct (kickoff_spec E c h b) as (Hr' & Hs' & _).
  done.
Qed.

(** ** The claims on the callback, the socket and the run *)

(** C6: [send_it] returns normally for every message: an exception raised
    in its [try] block is caught, logged with [logging.exception] after
    the events of the block, and not passed to the caller. *)
Theorem send_it_never_raises E message h b :
  let o := send_it E message h b in
  let block := send_it_try_block E message h b in
  result o = Ok tt
  ∧ self_after o = b
  ∧ emitted o = emitted block ++ logged (result block).
Proof.
  cbv zeta. destruct (send_it_spec E message h b) as (Hr & Hs & _).
  split; [done|]. split; [done|].
  rewrite send_it_unfold. apply try_except_log.
Qed.

(** C7: when the connect of [init_socket] raises a connection error, the
    error is logged and raised again, so [__init__] fails with it; and
    [init_socket] returns normally only if neither socket call raised. *)
Theorem init_socket_reraises E h b ce
    (Hconnect : connect_raises E (h ++ [socket_url_line E]) = Some ce)
    (Hclass : is_ConnError ce = true) :
  let o := init_socket E h b in
  result o = Raise ce
  ∧ emitted o = [socket_url_line E; socket_connect E; connection_error_line ce]
  ∧ (∀ session_id crew agents tasks tools datasources models credentials,
       result (__init__ E session_id crew agents tasks tools datasources
                 models credentials h) = Raise ce)
  ∧ (∀ h' b',
       result (init_socket E h' b') = Ok tt →
       connect_raises E (h' ++ [socket_url_line E]) = None
       ∧ emit_raises E (h' ++ [socket_url_line E; socket_connect E]) = None).
Proof.
  cbv zeta. rewrite init_socket_eq, Hconnect, Hclass.
  split; [done|]. split; [done|]. split.
  - intros session_id crew agents tasks tools datasources models credentials.
    unfold __init__. by rewrite init_socket_eq, Hconnect.
  - intros h' b'. rewrite init_socket_eq.
    destruct (connect_raises E (h' ++ [socket_url_line E])); [done|].
    by destruct (emit_raises E (h' ++ [socket_url_line E; socket_connect E])).
Qed.

Lemma init_socket_reraises_witness :
  let o := init_socket refusing_env [] sample_builder in
  result o = Raise connection_refused
  ∧ emitted o = [socket_url_line refusing_env; socket_connect refusing_env;
                 connection_error_line connection_refused]
  ∧ result (__init__ refusing_env "s1" {| mongo.crew_fields := [] |}
              sample_agents sample_tasks sample_tools sample_datasources
              sample_models sample_credentials []) = Raise connection_refused.
Proof.
  assert (Hconnect : connect_raises refusing_env ([] ++ [socket_url_line refusing_env])
                     = Some connection_refused) by reflexivity.
  assert (Hclass : is_ConnError connection_refused = true) by reflexivity.
  pose proof (init_socket_reraises refusing_env [] sample_builder
                connection_refused Hconnect Hclass) as H.
  cbv zeta in H. destruct H as (Hr & He & Hinit & _).
  split; [exact Hr|]. split; [exact He|]. apply Hinit.
Defined.

(** C8: constructing a builder connects the socket exactly once, in
    [init_socket]; [build_crew], [send_it] and [run_crew] never connect
    and leave the [socket] attribute as it is. *)
Theorem socket_connected_once E :
  (∀ session_id crew agents tasks tools datasources models credentials h,
     let o := __init__ E session_id crew agents tasks tools datasources
                models credentials h in
     count_connects (emitted o) = 1
     ∧ (result o = Ok tt → socket (self_after o) = Some {| connected := true |}))
  ∧ (∀ h b,
       let o := build_crew E h b in
       count_connects (emitted o) = 0 ∧ socket (self_after o) = socket b)
  ∧ (∀ message h b,
       let o := send_it E message h b in
       count_connects (emitted o) = 0 ∧ socket (self_after o) = socket b)
  ∧ (∀ h b,
       let o := run_crew E h b in
       count_connects (emitted o) = 0 ∧ socket (self_after o) = socket b).
Proof.
  split; [|split; [|split]].
  - intros session_id crew agents tasks tools datasources models credentials h.
    cbv zeta. unfold __init__. rewrite init_socket_eq.
    destruct (connect_raises E (h ++ [socket_url_line E])) as [e|].
    { split; [|done]. cbn [emitted]. by destruct (is_ConnError e). }
    destruct (emit_raises E (h ++ [socket_url_line E; socket_connect E]))
      as [e|]; [|done].
    split; [|done]. cbn [emitted]. by destruct (is_ConnError e).
  - intros h b. destruct (build_crew_quiet E h b) as (Hc & _ & Hs). done.
  - intros message h b. cbv zeta.
    destruct (send_it_spec E message h b) as (_ & Hs & _ & Hc & _).
    by rewrite Hs.
  - intros h b. cbv zeta. unfold run_crew.
    match goal with |- context [try_except ?body _ _ _ _] =>
      destruct (try_except_log body h b) as (_ & Hs & He) end.
    rewrite Hs, He, count_connects_app.
    rewrite (bind_Ok _ _ _ _ b) by done. cbv zeta.
    cbn [after_events get_self result self_after emitted app].
    destruct (crew b) as [c|]; [|done].
    destruct (kickoff_spec E c (h ++ []) b) as (Hr & Hs' & Hc).
    rewrite Hs', Hc. split; [|done].
    by destruct (result (kickoff E c (h ++ []) b)).
Qed.

Lemma socket_connected_once_witness :
  let o := __init__ sample_env "s1" {| mongo.crew_fields := [] |}
             sample_agents sample_tasks sample_tools sample_datasources
             sample_models sample_credentials [] in
  socket (self_after o) = Some {| connected := true |}.
Proof.
  apply (proj1 (socket_connected_once sample_env)). reflexivity.
Defined.

(** C9: the [send] calls of [send_it] are exactly those of the
    [AgentFinish] values with [return_values] that the message is or
    contains through lists and tuples, in order (one for each whose
    message object can be built, when the socket is there), so never more
    than these; each is sent with the ['output'] entry of its
    [return_values] as text.  [send_it] adds no event but sends, prints
    of unprocessed values and logged exceptions; an [AgentFinish]
    without [return_values] emits nothing, and any value that is not an
    [AgentFinish], a list or a tuple is only printed as unprocessed. *)
Theorem send_it_sends_agent_finish_only E message h b :
  let o := send_it E message h b in
  sent (emitted o) = expected_sends E b message
  ∧ sent (emitted o)
      `sublist_of` map (finish_send (session_id b)) (agent_finishes message)
  ∧ (agent_finishes message = [] → sent (emitted o) = [])
  ∧ Forall callback_event (emitted o)
  ∧ (∀ return_values sock,
       socket b = Some sock →
       message_raises E (rv_get return_values "output") = None →
       let socket_message :=
         {| room := session_id b; authorName := "system";
            message := {| text := rv_get return_values "output";
                          tokens := 1; first := true |} |} in
       emitted (send_it E (PyAgentFinish (Some return_values)) h b)
       = EvSend MESSAGE socket_message "both"
         :: logged (match send_raises E socket_message h with
                    | Some e => Raise e
                    | None => Ok tt
                    end))
  ∧ emitted (send_it E (PyAgentFinish None) h b) = []
  ∧ (∀ other,
       other = PyNone ∨ (∃ s, other = PyStr s)
       ∨ (∃ type_name repr, other = PyObject type_name repr) →
       emitted (send_it E other h b)
       = EvPrintFailed other :: logged (match print_raises E other h with
                                        | Some e => Raise e
                                        | None => Ok tt
                                        end)).
Proof.
  cbv zeta. destruct (send_it_spec E message h b) as (_ & _ & Hsent & _ & Hev).
  split; [apply send_it_sent_exact|]. split; [done|]. split.
  - intros Hnone. rewrite Hnone in Hsent. by apply sublist_nil_r in Hsent.
  - split; [done|]. split; [|split; [done|]].
    + intros rv sock Hsock Hmsg. rewrite send_it_unfold.
      match goal with |- context [try_except ?body _ _ _ _] =>
        destruct (try_except_log body h b) as (_ & _ & ->) end.
      cbn [send_it_try_block].
      rewrite (bind_Ok _ _ _ _ b) by done. cbv zeta.
      cbn [after_events get_self result self_after emitted app].
      rewrite Hmsg, Hsock, external_eq, app_nil_r.
      cbn [result emitted app]. by case_oracle.
    + intros other [->|[[s ->]|(t & r & ->)]];
        rewrite send_it_unfold;
        match goal with |- context [try_except ?body _ _ _ _] =>
          destruct (try_except_log body h b) as (_ & _ & ->) end;
        cbn [send_it_try_block]; rewrite external_eq;
        cbn [result emitted app]; by case_oracle.
Qed.

Lemma send_it_sends_agent_finish_only_witness :
  emitted (send_it sample_env sample_finish [] sample_connected_builder)
  = [EvSend MESSAGE
       {| room := "s1"; authorName := "system";
          message := {| text := PyStr "done"; tokens := 1; first := true |} |}
       "both"]
  ∧ sent (emitted (send_it sample_env
                     (PyList [PyStr "thinking"; PyTuple [sample_finish]]) []
                     sample_connected_builder))
    = [finish_send "s1" [("output", PyStr "done")]]
  ∧ sent (emitted (send_it sample_env (PyList [PyStr "thinking"; PyTuple []]) []
                     sample_connected_builder)) = []
  ∧ emitted (send_it sample_env (PyStr "thinking") [] sample_connected_builder)
    = [EvPrintFailed (PyStr "thinking")].
Proof.
  pose proof (send_it_sends_agent_finish_only sample_env
                (PyList [PyStr "thinking"; PyTuple [sample_finish]]) []
                sample_connected_builder) as H.
  pose proof (send_it_sends_agent_finish_only sample_env
                (PyList [PyStr "thinking"; PyTuple []]) []
                sample_connected_builder) as H'.
  cbv zeta in H, H'.
  destruct H as (Hexact & _ & _ & _ & Hfinish & _ & Hother).
  destruct H' as (_ & _ & Hnone & _).
  split; [|split; [|split]].
  - exact (Hfinish [("output", PyStr "done")] {| connected := true |}
             eq_refl eq_refl).
  - rewrite Hexact. vm_compute. reflexivity.
  - apply Hnone. reflexivity.
  - apply (Hother (PyStr "thinking")). right. left. by eexists.
Defined.

(** C10: [run_crew] returns normally whatever [kickoff] does: an
    exception of the engine, or the missing crew when [build_crew] has
    not run, is caught and logged with [logging.exception]. *)
Theorem run_crew_never_raises E h b :
  let o := run_crew E h b in
  result o = Ok tt
  ∧ self_after o = b
  ∧ match crew b with
    | Some c =>
        emitted o = emitted (kickoff E c h b) ++ logged (result (kickoff E c h b))
        ∧ result (kickoff E c h b)
          = match kickoff_raises E c h with
            | Some e => Raise e
            | None => Ok tt
            end
    | None => emitted o = [EvLogException (NoneType_has_no_attribute "kickoff")]
    end.
Proof.
  cbv zeta. unfold run_crew.
  match goal with |- context [try_except ?body _ _ _ _] =>
    destruct (try_except_log body h b) as (Hr & Hs & He) end.
  rewrite Hr, Hs, He. split; [done|].
  rewrite (bind_Ok _ _ _ _ b) by done. cbv zeta.
  cbn [after_events get_self result self_after emitted]. rewrite app_nil_r.
  destruct (crew b) as [c|]; [|done].
  destruct (kickoff_spec E c h b) as (Hr' & Hs' & _).
  done.
Qed.

(** ** Runs on the sample configuration *)

(** Step 1 builds the FastEmbed model and passes over the model whose
    credential has another platform and the model without a credential. *)
Example sample_crew_models :
  keys (crew_models (self_after (build_crew sample_env [] sample_builder)))
  = [{["a1"; "t1"; "m1"]}].
Proof. vm_compute. reflexivity. Qed.

(** The tool scoped below agent [a1] is built and attached to the agent. *)
Example sample_agent_tools :
  crewai.agent_tools <$>
    dict_get (crew_agents (self_after (build_crew sample_env [] sample_builder)))
      {["a1"]}
  = Some [sample_tool_built].
Proof. vm_compute. reflexivity. Qed.

(** Construction, build and run: the engine hands over a list with a
    string and an [AgentFinish]; the string is printed as unprocessed and
    the finish is sent to the room of the session. *)
Example sample_run :
  let o0 := __init__ sample_env "s1" {| mongo.crew_fields := [] |}
              sample_agents sample_tasks sample_tools sample_datasources
              sample_models sample_credentials [] in
  let o1 := build_crew sample_env (emitted o0) (self_after o0) in
  let o2 := run_crew sample_env (emitted o0 ++ emitted o1) (self_after o1) in
  result o0 = Ok tt ∧ result o1 = Ok tt ∧ result o2 = Ok tt
  ∧ emitted o2
    = [EvKickoff; EvPrintFailed (PyStr "thinking");
       EvSend MESSAGE
         {| room := "s1"; authorName := "system";
            message := {| text := PyStr "done"; tokens := 1; first := true |} |}
         "both"].
Proof. vm_compute. by repeat split. Qed.

(** With the engine failing and the socket refusing the [send], both
    exceptions end in the log and [run_crew] still returns. *)
Example sample_run_failing :
  let b := set_socket (self_after (build_crew refusing_env [] sample_builder))
             (Some {| connected := true |}) in
  let o := run_crew refusing_env [] b in
  result o = Ok tt
  ∧ emitted o
    = [EvKickoff;
       EvSend MESSAGE
         {| room := "s1"; authorName := "system";
            message := {| text := PyStr "done"; tokens := 1; first := true |} |}
         "both";
       EvLogException connection_refused;
       EvLogException engine_failure].
Proof. vm_compute. by split. Qed.

(** Where [models_cover] matters: with a built model under a key that no
    model record has, step 2 reads [model_name] off [None] and the later
    steps do not run. *)
Example build_crew_without_cover :
  let b := set_crew_models
             (new_builder "s1" {| mongo.crew_fields := [] |} [] []
                sample_tools sample_datasources [] [])
             [({["a1"; "t1"; "m1"]}, FastEmbedEmbeddings [])] in
  let o := build_crew sample_env [] b in
  result o = Raise (NoneType_has_no_attribute "model_name")
  ∧ emitted o = [EvStep step_models; EvStep step_tools].
Proof. vm_compute. by split. Qed.

(** * Further properties *)

(** ** The lookups *)

(** X1: the empty key-set is contained in every key-set, so [match_key]
    with an empty query returns the first value of the mapping, whatever
    [exact] is, and [None] only on an empty mapping. *)
Theorem match_key_empty_key {V} (elements_dict : pydict V) (exact : bool) :
  match_key elements_dict ∅ exact = snd <$> head elements_dict.
Proof.
  destruct elements_dict as [|[k v] rest]; [done|]. simpl.
  assert (issubset ∅ k = true) as -> by (apply issubset_spec; set_solver).
  by destruct (exact && key_eq ∅ k).
Qed.

(** X2: a query that matches keeps matching when it is made smaller:
    the scopes are ordered by containment. *)
Theorem match_key_antitone {V} (elements_dict : pydict V) (key key' : Key)
    (exact : bool) (v : V) :
  key' ⊆ key →
  match_key elements_dict key exact = Some v →
  is_Some (match_key elements_dict key' exact).
Proof.
  intros Hsub Hm.
  assert (Hplain : ∀ q, match_key elements_dict q exact
                        = match_key elements_dict q false)
    by (intros q; destruct exact; [apply match_key_exact_irrelevant|done]).
  rewrite Hplain in *.
  apply match_key_Some_key in Hm as (k & Hk & Hkey).
  apply (match_key_is_Some _ _ k Hk). intros x Hx. by apply Hkey, Hsub.
Qed.

Lemma match_key_antitone_witness :
  is_Some (match_key [({["a"; "b"]}, 1); ({["a"]}, 2)] {["a"]} true).
Proof.
  apply (match_key_antitone [({["a"; "b"]}, 1); ({["a"]}, 2)]
           {["a"; "b"]} {["a"]} true 1).
  - apply (bool_decide_unpack _). vm_compute. exact I.
  - vm_compute. reflexivity.
Defined.

(** X3: when no entry is keyed by exactly the query, [match_key] returns
    the first value of [search_subordinate_keys]. *)
Theorem match_key_head_search {V} (elements_dict : pydict V) (key : Key)
    (exact : bool) :
  dict_wf elements_dict →
  key ∉ keys elements_dict →
  match_key elements_dict key exact
  = snd <$> head (search_subordinate_keys elements_dict key).
Proof.
  intros Hwf Hkey.
  rewrite search_subordinate_keys_filter by done.
  assert (match_key elements_dict key exact = match_key elements_dict key false)
    as -> by (destruct exact; [apply match_key_exact_irrelevant|done]).
  rewrite match_key_head_filter. clear Hwf.
  do 2 f_equal. induction elements_dict as [|[k v] d IH]; [done|].
  unfold keys in Hkey. simpl in Hkey.
  apply not_elem_of_cons in Hkey as [Hne Hkey].
  rewrite !filter_cons, IH by done. simpl.
  destruct (decide (key ⊆ k)) as [Hs|Hs];
    destruct (decide (strictly_below key (k, v))) as [Hb|Hb]; try done.
  - destruct Hb. by split.
  - destruct Hs. apply Hb.
Qed.

Lemma match_key_head_search_witness :
  match_key sample_crew_tools {["t1"]} true
  = snd <$> head (search_subordinate_keys sample_crew_tools {["t1"]}).
Proof.
  apply (match_key_head_search sample_crew_tools {["t1"]} true).
  - unfold dict_wf. apply (bool_decide_unpack _). vm_compute. exact I.
  - apply (bool_decide_unpack _). vm_compute. exact I.
Defined.

(** ** The socket set-up *)

(** X4: when neither the connect nor the join raises, [init_socket]
    prints the URL, connects with the token header, joins the room named
    by an underscore and the session id, and leaves a connected client in
    [socket] with every other field as it was. *)
Theorem init_socket_success E h b :
  connect_raises E (h ++ [socket_url_line E]) = None →
  emit_raises E (h ++ [socket_url_line E; socket_connect E]) = None →
  let o := init_socket E h b in
  result o = Ok tt
  ∧ self_after o = set_socket b (Some {| connected := true |})
  ∧ emitted o = [EvPrint ("Socker URL:   " +:+ SOCKET_URL E);
                 EvConnect (SOCKET_URL E)
                   [("x-agent-backend-socket-token",
                     AGENT_BACKEND_SOCKET_TOKEN E)];
                 EvEmit "join_room" ("_" +:+ session_id b)].
Proof. intros Hc He. cbv zeta. by rewrite init_socket_eq, Hc, He. Qed.

Lemma init_socket_success_witness :
  result (init_socket sample_env [] sample_builder) = Ok tt
  ∧ emitted (init_socket sample_env [] sample_builder)
    = [EvPrint "Socker URL:   http://webapp:3000";
       EvConnect "http://webapp:3000"
         [("x-agent-backend-socket-token", "token")];
       EvEmit "join_room" "_s1"].
Proof.
  destruct (init_socket_success sample_env [] sample_builder eq_refl eq_refl)
    as (Hr & _ & He).
  split; [exact Hr|exact He].
Defined.

(** X5: whatever [init_socket] raises is the exception of the socket
    call that failed, and the log line is its last event exactly when
    that exception is a connection error: any other exception leaves
    unlogged. *)
Theorem init_socket_logs_connection_errors_only E h b e :
  let o := init_socket E h b in
  result o = Raise e →
  (connect_raises E (h ++ [socket_url_line E]) = Some e
   ∨ emit_raises E (h ++ [socket_url_line E; socket_connect E]) = Some e)
  ∧ (last (emitted o) = Some (connection_error_line e)
     ↔ is_ConnError e = true).
Proof.
  cbv zeta. rewrite init_socket_eq.
  destruct (connect_raises E (h ++ [socket_url_line E])) as [e1|].
  { simpl. intros [= ->]. split; [by left|].
    destruct (is_ConnError e); simpl; split; done. }
  destruct (emit_raises E (h ++ [socket_url_line E; socket_connect E]))
    as [e2|]; [|done].
  simpl. intros [= ->]. split; [by right|].
  destruct (is_ConnError e); simpl; split; done.
Qed.

Lemma init_socket_logs_connection_errors_only_witness :
  last (emitted (init_socket refusing_env [] sample_builder))
  = Some (connection_error_line connection_refused)
  ↔ is_ConnError connection_refused = true.
Proof.
  apply (init_socket_logs_connection_errors_only refusing_env [] sample_builder
           connection_refused).
  reflexivity.
Defined.

(** ** The step callback on lists and tuples *)

(** X6: the parts of a list or tuple are handled one after the other and
    independently: the events of the whole are those of the first part
    followed by those of the rest, so a part that fails (and is logged)
    does not keep the later parts from being processed; a tuple is
    handled as the list of its parts. *)
Theorem send_it_parts_in_turn E p parts h b :
  emitted (send_it E (PyList (p :: parts)) h b)
  = emitted (send_it E p h b)
    ++ emitted (send_it E (PyList parts) (h ++ emitted (send_it E p h b)) b)
  ∧ emitted (send_it E (PyList []) h b) = []
  ∧ emitted (send_it E (PyTuple (p :: parts)) h b)
    = emitted (send_it E (PyList (p :: parts)) h b).
Proof.
  split; [|split].
  - rewrite !(proj1 (send_it_list_events E _ _ _)).
    by rewrite for_each_send_it_cons.
  - by rewrite (proj1 (send_it_list_events E _ _ _)).
  - by rewrite (proj1 (send_it_list_events E _ _ _)),
      (proj2 (send_it_list_events E _ _ _)).
Qed.

(** X7: with a socket in place and an environment in which building the
    message and sending it never fail, [send_it] sends one message for
    every [AgentFinish] with [return_values] inside the message, in
    order, however deeply it is nested in lists and tuples. *)
Theorem send_it_forwards_every_finish E message h b :
  (∀ output, message_raises E output = None) →
  (∀ socket_message history, send_raises E socket_message history = None) →
  is_Some (socket b) →
  sent (emitted (send_it E message h b))
  = map (finish_send (session_id b)) (agent_finishes message).
Proof.
  intros Hmsg Hsend [sock Hsock]. revert h.
  induction message as [| s | rv | parts IH | parts IH | t r]
    using pyvalue_parts_ind; intros h;
    try (rewrite ?(proj1 (send_it_list_events E _ _ _)),
           ?(proj2 (send_it_list_events E _ _ _));
         cbn [agent_finishes]; revert h;
         induction IH as [|p parts Hp _ IHparts]; intros h; [done|];
         rewrite for_each_send_it_cons; cbn [after_events emitted flat_map];
         by rewrite sent_app, map_app, Hp, IHparts);
    rewrite send_it_unfold;
    match goal with |- context [try_except ?body _ _ _ _] =>
      destruct (try_except_log body h b) as (_ & _ & ->) end;
    rewrite sent_app, sent_logged, app_nil_r; cbn [send_it_try_block];
    try (by rewrite external_eq).
  destruct rv as [rv|]; [|done].
  rewrite (bind_Ok _ _ _ _ b) by done. cbv zeta.
  cbn [after_events get_self result self_after emitted app].
  rewrite Hmsg, Hsock, external_eq. reflexivity.
Qed.

Lemma send_it_forwards_every_finish_witness :
  sent (emitted (send_it sample_env
                   (PyList [sample_finish; PyTuple [sample_finish]]) []
                   (set_socket sample_builder (Some {| connected := true |}))))
  = map (finish_send "s1")
      (agent_finishes (PyList [sample_finish; PyTuple [sample_finish]])).
Proof.
  apply (send_it_forwards_every_finish sample_env
           (PyList [sample_finish; PyTuple [sample_finish]]) []
           (set_socket sample_builder (Some {| connected := true |}))).
  - reflexivity.
  - reflexivity.
  - simpl. by eexists.
Defined.

(** X8: everything [run_crew] sends comes from the steps the engine hands
    to the callback: the [send] calls are, in order, among those of the
    [AgentFinish] values inside these steps, each addressed to the room
    of the session; without a built crew nothing is sent and the engine
    is not started. *)
Theorem run_crew_sends_finishes_of_steps E h b :
  let o := run_crew E h b in
  match crew b with
  | Some c =>
      sent (emitted o)
        `sublist_of` map (finish_send (session_id b))
                       (flat_map agent_finishes (kickoff_steps E c h))
      ∧ head (emitted o) = Some EvKickoff
  | None => sent (emitted o) = [] ∧ EvKickoff ∉ emitted o
  end.
Proof.
  destruct (run_crew_never_raises_aux E h b) as (_ & _ & He).
  cbv zeta. destruct (crew b) as [c|] eqn:Hcrew.
  - destruct He as [-> _]. rewrite sent_app, sent_logged, app_nil_r.
    unfold kickoff.
    rewrite (bind_Ok _ _ _ _ h) by done. cbv zeta.
    rewrite (bind_Ok _ _ _ _ tt) by done. cbv zeta.
    cbn [after_events get_history emit_event result self_after emitted].
    assert (Hcall : call_callback E (crewai.step_callback c) = send_it E)
      by (by destruct (crewai.step_callback c)).
    rewrite Hcall.
    pose proof (for_each_send_it_ok E (kickoff_steps E c h)
                  (proj2 (Forall_forall _ _) (λ m _, send_it_spec E m))) as Hloop.
    match goal with |- context [bind (for_each _ _) _ ?h' ?b'] =>
      destruct (Hloop h' b') as (Hr & Hs & Hsent & _)
    end.
    rewrite (bind_Ok _ _ _ _ tt) by done.
    cbn [after_events result self_after emitted app]. split; [|done].
    change (sent (EvKickoff :: ?l)) with (sent l).
    rewrite sent_app.
    by destruct (kickoff_raises E c h); cbn; rewrite app_nil_r.
  - rewrite He. split; [done|]. by intros [[=]|[]%elem_of_nil]%elem_of_cons.
Qed.

(** ** The build steps in closed form *)

Lemma build_models_with_credentials_eq h b :
  build_models_with_credentials h b
  = {| result := Ok tt; self_after := after_models b;
       emitted := [EvStep step_models] |}.
Proof.
  unfold build_models_with_credentials, for_each_item, after_models.
  match goal with |- context [for_each ?f _] => set (body := f) end.
  assert (Hloop : ∀ l h b0,
    credentials_models b0 = credentials_models b →
    for_each body l h b0
    = {| result := Ok tt;
         self_after :=
           set_crew_models b0 (store_some (built_model b) l (crew_models b0));
         emitted := [] |}).
  { clear h. induction l as [|[key model] l IH]; intros h b0 Hc.
    - simpl. unfold ret, store_some. simpl. by rewrite set_crew_models_id.
    - assert (Hbody : body (key, model) h b0
        = {| result := Ok tt;
             self_after :=
               set_crew_models b0
                 (store_some (built_model b) [(key, model)] (crew_models b0));
             emitted := [] |}).
      { unfold body, bind, get_self, update_self, ret, store_some, built_model,
          credential_model. simpl. rewrite Hc.
        destruct (match_key (credentials_models b) key false) as [c|];
          [|by rewrite set_crew_models_id].
        destruct (mongo.type c); simpl; try done.
        by rewrite set_crew_models_id. }
      cbn [for_each]. rewrite (bind_Ok _ _ _ _ tt) by (by rewrite Hbody).
      rewrite Hbody. cbn [after_events result self_after emitted].
      by rewrite IH. }
  rewrite (bind_Ok _ _ _ _ tt) by done. cbv zeta.
  rewrite (bind_Ok _ _ _ _ b) by done. cbv zeta.
  cbn [after_events get_self emit_event result self_after emitted].
  by rewrite Hloop.
Qed.

Lemma build_tools_and_their_datasources_eq E h b :
  build_tools_and_their_datasources E h b
  = {| result :=
         if existsb (tool_breaks b) (keys (tools_models b))
         then Raise (NoneType_has_no_attribute "model_name")
         else Ok tt;
       self_after := after_tools E b;
       emitted := [EvStep step_tools] |}.
Proof.
  unfold build_tools_and_their_datasources, for_each_item, after_tools.
  match goal with |- context [for_each ?f _] => set (body := f) end.
  assert (Hloop : ∀ l h b0,
    datasources_models b0 = datasources_models b →
    crew_models b0 = crew_models b →
    models_models b0 = models_models b →
    for_each body l h b0
    = {| result :=
           if existsb (tool_breaks b) (keys l)
           then Raise (NoneType_has_no_attribute "model_name")
           else Ok tt;
         self_after :=
           set_crew_tools b0
             (store_some (built_tool E b) (tools_before_break b l)
                (crew_tools b0));
         emitted := [] |}).
  { clear h. induction l as [|[key tool] l IH]; intros h b0 Hd Hc Hm.
    - simpl. unfold ret, store_some. simpl. by rewrite set_crew_tools_id.
    - assert (Hbody : body (key, tool) h b0
        = {| result :=
               if tool_breaks b key
               then Raise (NoneType_has_no_attribute "model_name")
               else Ok tt;
             self_after :=
               set_crew_tools b0
                 (store_some (built_tool E b) [(key, tool)] (crew_tools b0));
             emitted := [] |}).
      { unfold body, bind, get_self, update_self, ret, raise, store_some,
          built_tool, tool_breaks. simpl. rewrite Hd, Hc, Hm.
        destruct (match_key (datasources_models b) key false) as [ds|];
          [|by rewrite set_crew_tools_id].
        destruct (match_key (crew_models b) key false) as [em|];
          [|by rewrite set_crew_tools_id].
        destruct (match_key (models_models b) key false) as [mm|];
          [done|by rewrite set_crew_tools_id]. }
      cbn [for_each tools_before_break]. unfold keys. cbn [fmap list_fmap existsb fst].
      fold (keys l).
      destruct (tool_breaks b key) eqn:Hbreak.
      + rewrite (bind_Raise _ _ _ _ (NoneType_has_no_attribute "model_name"))
          by (by rewrite Hbody).
        rewrite Hbody. cbn [result self_after emitted orb].
        unfold store_some, built_tool. unfold tool_breaks in Hbreak. simpl.
        destruct (match_key (datasources_models b) key false) as [ds|];
          [|done].
        destruct (match_key (crew_models b) key false) as [em|]; [|done].
        by destruct (match_key (models_models b) key false) as [mm|].
      + rewrite (bind_Ok _ _ _ _ tt) by (by rewrite Hbody).
        rewrite Hbody. cbn [after_events result self_after emitted orb].
        by rewrite IH. }
  rewrite (bind_Ok _ _ _ _ tt) by done. cbv zeta.
  rewrite (bind_Ok _ _ _ _ b) by done. cbv zeta.
  cbn [after_events get_self emit_event result self_after emitted].
  by rewrite Hloop.
Qed.

(** ** Facts on the stores of the loops *)


Lemma store_some_ext {X V} (g g' : Key → X → option V) l (d : pydict V) :
  (∀ k x, g k x = g' k x) → store_some g l d = store_some g' l d.
Proof.
  intros Hg. revert d. induction l as [|[k x] l IH]; intros d; [done|].
  unfold store_some. simpl. rewrite Hg. apply IH.
Qed.

Lemma store_all_store_some {X V} (g : Key → X → V) l (d : pydict V) :
  store_all g l d = store_some (λ k x, Some (g k x)) l d.
Proof. done. Qed.

Lemma store_some_spec {X V} (g : Key → X → option V) (l : pydict X)
    (d : pydict V) :
  NoDup (keys l) →
  (∀ key x, (key, x) ∈ l →
     dict_get (store_some g l d) key
     = match g key x with Some v => Some v | None => dict_get d key end)
  ∧ (∀ key, key ∉ keys l → dict_get (store_some g l d) key = dict_get d key).
Proof.
  revert d. induction l as [|[k0 x0] l IH]; intros d Hnd.
  - split; [|done]. intros key x Hin. by apply elem_of_nil in Hin.
  - unfold keys in Hnd. simpl in Hnd. apply NoDup_cons in Hnd as [Hk0 Hnd].
    unfold store_some. simpl.
    set (d1 := match g k0 x0 with Some v => dict_set d k0 v | None => d end).
    fold (store_some g l d1).
    destruct (IH d1 Hnd) as [IHin IHout].
    assert (Hd1 : ∀ key, key ≠ k0 → dict_get d1 key = dict_get d key).
    { intros key Hne. unfold d1. destruct (g k0 x0); [|done].
      by apply dict_get_set_ne. }
    split.
    + intros key x [[= -> ->]|Hin]%elem_of_cons.
      * rewrite IHout by done. unfold d1.
        destruct (g k0 x0); [apply dict_get_set_eq|done].
      * rewrite (IHin key x Hin). destruct (g key x); [done|].
        apply Hd1. intros ->. apply Hk0.
        apply list_elem_of_fmap. by exists (k0, x).
    + intros key Hout. unfold keys in Hout. simpl in Hout.
      apply not_elem_of_cons in Hout as [Hne Hout].
      rewrite IHout by done. by apply Hd1.
Qed.

Lemma keys_store_some {X V} (g : Key → X → option V) (l : pydict X)
    (d : pydict V) key :
  key ∈ keys (store_some g l d) ↔
  key ∈ keys d ∨ ∃ x, (key, x) ∈ l ∧ is_Some (g key x).
Proof.
  revert d. induction l as [|[k0 x0] l IH]; intros d.
  - unfold store_some. simpl. split; [by left|].
    intros [?|(x & Hin & _)]; [done|]. by apply elem_of_nil in Hin.
  - unfold store_some. simpl.
    set (d1 := match g k0 x0 with Some v => dict_set d k0 v | None => d end).
    fold (store_some g l d1). rewrite IH.
    assert (Hd1 : key ∈ keys d1 ↔
                  key ∈ keys d ∨ (key = k0 ∧ is_Some (g k0 x0))).
    { unfold d1. destruct (g k0 x0) as [v|].
      - rewrite keys_dict_set. split; [intros [->|?]|intros [?|[-> _]]]; eauto.
      - split; [by left|]. by intros [?|[_ [? ?]]]. }
    rewrite Hd1. split.
    + intros [[?|[-> Hs]]|(x & Hin & Hs)]; [by left| |].
      * right. exists x0. split; [by left|done].
      * right. exists x. split; [by right|done].
    + intros [?|(x & [[= -> ->]|Hin]%elem_of_cons & Hs)];
        [by left; left|by left; right|].
      right. by exists x.
Qed.


Lemma store_all_fresh {X V} (g : Key → X → V) (l : pydict X) (d : pydict V) :
  NoDup (keys d ++ keys l) →
  store_all g l d = d ++ ((λ kx, (kx.1, g kx.1 kx.2)) <$> l).
Proof.
  revert d. induction l as [|[k x] l IH]; intros d Hnd.
  - unfold store_all. simpl. by rewrite app_nil_r.
  - unfold store_all. simpl. fold (store_all g l (dict_set d k (g k x))).
    unfold keys in Hnd. simpl in Hnd.
    apply NoDup_app in Hnd as (Hd & Hdisj & Hl).
    apply NoDup_cons in Hl as [Hk Hl].
    assert (Hfresh : k ∉ keys d)
      by (intros Hin; apply (Hdisj k Hin); by left).
    rewrite dict_set_fresh by done. rewrite IH.
    + by rewrite <-app_assoc.
    + unfold keys. rewrite fmap_app. simpl. rewrite <-app_assoc. simpl.
      apply NoDup_app. repeat split; [done| |by apply NoDup_cons].
      intros y Hy. by apply Hdisj.
Qed.

Lemma tool_breaks_cover b key : models_cover b → tool_breaks b key = false.
Proof.
  intros Hcover. unfold tool_breaks.
  destruct (match_key (datasources_models b) key false); [|done].
  destruct (match_key (crew_models b) key false) as [em|] eqn:Hem; [|done].
  apply match_key_Some_key in Hem as (k & Hk & Hsub).
  by destruct (match_key_is_Some (models_models b) key k (Hcover k Hk) Hsub)
    as [mm ->].
Qed.

Lemma tools_before_break_all b l :
  (∀ key, key ∈ keys l → tool_breaks b key = false) →
  tools_before_break b l = l
  ∧ existsb (tool_breaks b) (keys l) = false.
Proof.
  induction l as [|[key tool] l IH]; intros Hno; [done|].
  assert (Hkey : tool_breaks b key = false) by (apply Hno; by left).
  destruct IH as [IH1 IH2]; [intros k Hk; apply Hno; by right|].
  unfold keys in *. cbn [tools_before_break fmap list_fmap existsb fst].
  by rewrite Hkey, IH1, IH2.
Qed.

Lemma models_cover_after_models_eq b :
  models_cover b → models_cover (after_models b).
Proof.
  intros Hcover k. unfold after_models. simpl. rewrite keys_store_some.
  intros [Hk|(x & Hin & _)]; [by apply Hcover|].
  apply list_elem_of_fmap. by exists (k, x).
Qed.

Lemma build_crew_eq E h b :
  build_crew E h b
  = if existsb (tool_breaks (after_models b)) (keys (tools_models b))
    then {| result := Raise (NoneType_has_no_attribute "model_name");
            self_after := after_tools E (after_models b);
            emitted := [EvStep step_models; EvStep step_tools] |}
    else {| result := Ok tt;
            self_after :=
              after_crew (after_tasks E (after_agents
                (after_tools E (after_models b))));
            emitted := [EvStep step_models; EvStep step_tools;
                        EvStep step_agents; EvStep step_tasks;
                        EvStep step_crew] |}.
Proof.
  unfold build_crew.
  rewrite (bind_Ok _ _ _ _ tt) by (by rewrite build_models_with_credentials_eq).
  rewrite build_models_with_credentials_eq.
  cbn [after_events result self_after emitted].
  pose proof (build_tools_and_their_datasources_eq E
                (h ++ [EvStep step_models]) (after_models b)) as Htools.
  change (tools_models (after_models b)) with (tools_models b) in Htools.
  destruct (existsb (tool_breaks (after_models b)) (keys (tools_models b))).
  - rewrite (bind_Raise _ _ _ _ (NoneType_has_no_attribute "model_name"))
      by (by rewrite Htools).
    by rewrite Htools.
  - rewrite (bind_Ok _ _ _ _ tt) by (by rewrite Htools).
    rewrite Htools. cbn [after_events result self_after emitted].
    rewrite (bind_Ok _ _ _ _ tt) by (by rewrite build_agents_eq).
    rewrite build_agents_eq. cbn [after_events result self_after emitted].
    rewrite (bind_Ok _ _ _ _ tt) by (by rewrite build_tasks_eq).
    rewrite build_tasks_eq. cbn [after_events result self_after emitted].
    unfold build_crew_object.
    rewrite (bind_Ok _ _ _ _ tt) by done.
    reflexivity.
Qed.

(** ** The build steps, one by one *)

(** X9: [build_tools_and_their_datasources] returns normally exactly
    when no tool key matches a datasource and a built model without
    matching a model record; otherwise it raises the [AttributeError] of
    reading [model_name] off [None].  Either way [crew_tools] holds the
    tools built before the first such key, and nothing else changed. *)
Theorem build_tools_stops_at_first_break E h b :
  let o := build_tools_and_their_datasources E h b in
  (result o = Ok tt ↔
   ∀ key, key ∈ keys (tools_models b) → tool_breaks b key = false)
  ∧ (result o = Ok tt
     ∨ result o = Raise (NoneType_has_no_attribute "model_name"))
  ∧ self_after o
    = set_crew_tools b
        (store_some (built_tool E b)
           (tools_before_break b (tools_models b)) (crew_tools b)).
Proof.
  cbv zeta. rewrite build_tools_and_their_datasources_eq.
  cbn [result self_after]. split; [|split; [|done]].
  - destruct (existsb (tool_breaks b) (keys (tools_models b))) eqn:Hex.
    + split; [done|]. intros Hno.
      apply existsb_exists in Hex as (key & Hin & Hbreak).
      apply list_elem_of_In in Hin. rewrite Hno in Hbreak; done.
    + split; [|done]. intros _ key Hin.
      destruct (tool_breaks b key) eqn:Hbreak; [|done].
      assert (existsb (tool_breaks b) (keys (tools_models b)) = true)
        by (apply existsb_exists; exists key; by rewrite <-list_elem_of_In).
      congruence.
  - destruct (existsb (tool_breaks b) (keys (tools_models b))); eauto.
Qed.

(** X10: from a builder whose built models all have a model record,
    step 2 returns normally, and afterwards the tool key of every
    configured tool looks up the tool built from the first datasource,
    built model and model record that match the key, when a datasource
    and a built model match, and what was there before otherwise; other
    keys are untouched. *)
Theorem build_tools_lookup E h b :
  models_cover b → dict_wf (tools_models b) →
  let o := build_tools_and_their_datasources E h b in
  result o = Ok tt
  ∧ (∀ key tool, (key, tool) ∈ tools_models b →
       dict_get (crew_tools (self_after o)) key
       = match built_tool E b key tool with
         | Some built => Some built
         | None => dict_get (crew_tools b) key
         end)
  ∧ (∀ key, key ∉ keys (tools_models b) →
       dict_get (crew_tools (self_after o)) key = dict_get (crew_tools b) key).
Proof.
  intros Hcover Hwf. cbv zeta. rewrite build_tools_and_their_datasources_eq.
  destruct (tools_before_break_all b (tools_models b)) as [Hall Hex];
    [intros key _; by apply tool_breaks_cover|].
  unfold after_tools. rewrite Hex, Hall. cbn [result self_after crew_tools set_crew_tools].
  split; [done|]. by apply store_some_spec.
Qed.

Lemma build_tools_lookup_witness :
  let b := after_models sample_builder in
  let o := build_tools_and_their_datasources sample_env [] b in
  result o = Ok tt
  ∧ dict_get (crew_tools (self_after o)) {["a1"; "t1"]}
    = match built_tool sample_env b {["a1"; "t1"]}
              {| mongo.name := "search";
                 mongo.description := "search the docs" |} with
      | Some built => Some built
      | None => dict_get (crew_tools b) {["a1"; "t1"]}
      end.
Proof.
  assert (Hcover : models_cover (after_models sample_builder)).
  { apply models_cover_after_models_eq. intros k Hk. by apply elem_of_nil in Hk. }
  assert (Hwf : dict_wf (tools_models (after_models sample_builder))).
  { unfold dict_wf. apply (bool_decide_unpack _). vm_compute. exact I. }
  destruct (build_tools_lookup sample_env [] (after_models sample_builder)
              Hcover Hwf) as (Hr & Hin & _).
  split; [exact Hr|]. apply Hin. by left.
Defined.

(** X11: after step 1 the key of every configured model looks up the
    client built for it from the first credential that matches the key:
    ChatOpenAI and AzureChatOpenAI with the credential's API key,
    FastEmbed without, each with the model's fields minus the excluded
    ones; a model without a matching credential or with another platform
    leaves its key as it was, and other keys are untouched. *)
Theorem build_models_lookup h b :
  dict_wf (models_models b) →
  let o := build_models_with_credentials h b in
  (∀ key model, (key, model) ∈ models_models b →
     dict_get (crew_models (self_after o)) key
     = match match_key (credentials_models b) key false with
       | Some credential =>
           match credential_model credential model with
           | Some built => Some built
           | None => dict_get (crew_models b) key
           end
       | None => dict_get (crew_models b) key
       end)
  ∧ (∀ key, key ∉ keys (models_models b) →
       dict_get (crew_models (self_after o)) key = dict_get (crew_models b) key).
Proof.
  intros Hwf. cbv zeta. rewrite build_models_with_credentials_eq.
  unfold after_models. cbn [self_after crew_models set_crew_models].
  destruct (store_some_spec (built_model b) (models_models b) (crew_models b)
              Hwf) as [Hin Hout].
  split; [|done]. intros key model Hkm. rewrite (Hin key model Hkm).
  unfold built_model. by destruct (match_key (credentials_models b) key false).
Qed.

Lemma build_models_lookup_witness :
  dict_get (crew_models (self_after
              (build_models_with_credentials [] sample_builder)))
    {["a1"; "t1"; "m1"]}
  = Some (FastEmbedEmbeddings [("model_name", "fast-bge-small-en")]).
Proof.
  assert (Hwf : dict_wf (models_models sample_builder)).
  { unfold dict_wf. apply (bool_decide_unpack _). vm_compute. exact I. }
  destruct (build_models_lookup [] sample_builder Hwf) as [Hin _].
  rewrite (Hin {["a1"; "t1"; "m1"]}
             {| mongo.model_name := "fast-bge-small-en";
                mongo.model_fields :=
                  [("id", "m1"); ("name", "embedder");
                   ("model_name", "fast-bge-small-en")] |})
    by (by left).
  vm_compute. reflexivity.
Defined.

(** X12: [build_agents] on a builder without built agents stores one
    agent per agent record, under the record's key and in configuration
    order; no record is passed over, even when no model or tool matches
    (the agent then gets [llm=None] and no tools). *)
Theorem build_agents_one_per_record h b :
  crew_agents b = [] → dict_wf (agents_models b) →
  crew_agents (self_after (build_agents h b))
  = (λ kx, (kx.1,
            {| crewai.agent_kwargs :=
                 model_dump (mongo.agent_fields kx.2)
                   ["id"; "toolIds"; "modelId"; "taskIds"];
               crewai.llm := match_key (crew_models b) kx.1 false;
               crewai.agent_tools :=
                 values (search_subordinate_keys (crew_tools b) kx.1) |}))
    <$> agents_models b.
Proof.
  intros Hempty Hwf. rewrite build_agents_eq.
  cbn [self_after crew_agents set_crew_agents]. rewrite Hempty.
  rewrite store_all_fresh by done. simpl.
  apply list_fmap_ext. intros i [k a] _. unfold built_agent. simpl.
  by rewrite match_key_exact_irrelevant.
Qed.

Lemma build_agents_one_per_record_witness :
  keys (crew_agents (self_after (build_agents [] sample_builder)))
  = [{["a1"]}].
Proof.
  assert (Hwf : dict_wf (agents_models sample_builder)).
  { unfold dict_wf. apply (bool_decide_unpack _). vm_compute. exact I. }
  rewrite (build_agents_one_per_record [] sample_builder eq_refl Hwf).
  reflexivity.
Defined.

(** X13: [build_tasks] on a builder without built tasks stores one task
    per task record, in configuration order; the task's agent is the
    first built agent whose key contains the key-set of its [agentId],
    or [None] when there is none. *)
Theorem build_tasks_one_per_record E h b :
  crew_tasks b = [] → dict_wf (tasks_models b) →
  crew_tasks (self_after (build_tasks E h b))
  = (λ kx, (kx.1,
            {| crewai.task_kwargs := model_dump (mongo.task_fields kx.2) ["id"];
               crewai.agent :=
                 snd <$> head (filter (λ ka, keyset E (mongo.agentId kx.2) ⊆ ka.1)
                                 (crew_agents b));
               crewai.task_tools :=
                 values (search_subordinate_keys (crew_tools b) kx.1) |}))
    <$> tasks_models b.
Proof.
  intros Hempty Hwf. rewrite build_tasks_eq.
  cbn [self_after crew_tasks set_crew_tasks]. rewrite Hempty.
  rewrite store_all_fresh by done. simpl.
  apply list_fmap_ext. intros i [k t] _. unfold built_task. simpl.
  by rewrite match_key_exact_irrelevant, match_key_head_filter.
Qed.

Lemma build_tasks_one_per_record_witness :
  keys (crew_tasks (self_after (build_tasks sample_env [] sample_builder)))
  = [{["t1"]}].
Proof.
  assert (Hwf : dict_wf (tasks_models sample_builder)).
  { unfold dict_wf. apply (bool_decide_unpack _). vm_compute. exact I. }
  rewrite (build_tasks_one_per_record sample_env [] sample_builder eq_refl Hwf).
  reflexivity.
Defined.

(** ** The five steps together *)


Lemma build_crew_eq_cover E h b :
  models_cover b →
  build_crew E h b
  = {| result := Ok tt;
       self_after :=
         after_crew (after_tasks E (after_agents
           (set_crew_tools (after_models b)
              (store_some (built_tool E (after_models b)) (tools_models b)
                 (crew_tools b)))));
       emitted := [EvStep step_models; EvStep step_tools;
                   EvStep step_agents; EvStep step_tasks;
                   EvStep step_crew] |}.
Proof.
  intros Hcover. rewrite build_crew_eq.
  destruct (tools_before_break_all (after_models b) (tools_models b))
    as [Hall Hex];
    [intros key _; by apply tool_breaks_cover, models_cover_after_models_eq|].
  rewrite Hex. unfold after_tools.
  change (tools_models (after_models b)) with (tools_models b).
  by rewrite Hall.
Qed.

(** X14: [build_crew] assigns to the [crew_*] fields only: the session
    id and the eight configuration arguments of the constructor are the
    same afterwards, also when step 2 raises. *)
Theorem build_crew_keeps_configuration E h b :
  same_configuration b (self_after (build_crew E h b)).
Proof.
  rewrite build_crew_eq.
  by destruct (existsb (tool_breaks (after_models b)) (keys (tools_models b)));
    repeat split.
Qed.

(** X15: on a builder as [__init__] leaves it, [build_crew] always
    returns normally, and the crew it stores has one agent per agent
    record and one task per task record, in configuration order, built
    from the records' fields without the excluded ones, with [send_it]
    as its step callback. *)
Theorem build_crew_after_init E session crew_record agents tasks tools
    datasources models credentials h h' :
  dict_wf agents → dict_wf tasks →
  let o0 := __init__ E session crew_record agents tasks tools datasources
              models credentials h in
  let o := build_crew E h' (self_after o0) in
  result o = Ok tt
  ∧ ∃ c, crew (self_after o) = Some c
         ∧ crewai.agent_kwargs <$> crewai.agents c
           = (λ kx, model_dump (mongo.agent_fields kx.2)
                      ["id"; "toolIds"; "modelId"; "taskIds"]) <$> agents
         ∧ crewai.task_kwargs <$> crewai.tasks c
           = (λ kx, model_dump (mongo.task_fields kx.2) ["id"]) <$> tasks
         ∧ crewai.crew_kwargs c
           = model_dump (mongo.crew_fields crew_record) ["id"; "tasks"; "agents"]
         ∧ crewai.step_callback c = self_send_it.
Proof.
  intros Hagents Htasks. cbv zeta.
  assert (Hinit : ∃ sock,
    self_after (__init__ E session crew_record agents tasks tools datasources
                  models credentials h)
    = set_socket (new_builder session crew_record agents tasks tools
                    datasources models credentials) sock).
  { unfold __init__. rewrite init_socket_eq. repeat case_oracle; by eexists. }
  destruct Hinit as [sock ->].
  rewrite build_crew_eq_cover
    by (intros k Hk; by apply elem_of_nil in Hk).
  split; [done|]. eexists. split; [reflexivity|].
  cbn [crewai.agents crewai.tasks crewai.crew_kwargs crewai.step_callback].
  split; [|split; [|done]].
  - unfold after_tasks, after_agents, values.
    cbn [crew_agents set_crew_tasks set_crew_agents set_crew_tools set_socket
         new_builder agents_models after_models set_crew_models].
    rewrite store_all_fresh by done. simpl.
    rewrite <-!list_fmap_compose. by apply list_fmap_ext.
  - unfold after_tasks, values.
    cbn [crew_tasks set_crew_tasks].
    change (crew_tasks (after_agents _)) with (@nil (Key * crewai.Task)).
    change (tasks_models (after_agents _)) with tasks.
    rewrite store_all_fresh by done. simpl.
    rewrite <-!list_fmap_compose. by apply list_fmap_ext.
Qed.

Lemma build_crew_after_init_witness :
  let o0 := __init__ sample_env "s1" {| mongo.crew_fields := [("id", "c")] |}
              sample_agents sample_tasks sample_tools sample_datasources
              sample_models sample_credentials [] in
  result (build_crew sample_env [] (self_after o0)) = Ok tt.
Proof.
  assert (Ha : dict_wf sample_agents).
  { unfold dict_wf. apply (bool_decide_unpack _). vm_compute. exact I. }
  assert (Ht : dict_wf sample_tasks).
  { unfold dict_wf. apply (bool_decide_unpack _). vm_compute. exact I. }
  exact (proj1 (build_crew_after_init sample_env "s1"
                  {| mongo.crew_fields := [("id", "c")] |}
                  sample_agents sample_tasks sample_tools sample_datasources
                  sample_models sample_credentials [] [] Ha Ht)).
Defined.



(** ** What the callback reports, and running before building *)

Lemma printed_app evs evs' : printed (evs ++ evs') = printed evs ++ printed evs'.
Proof. unfold printed. apply flat_map_app. Qed.

Lemma printed_logged {A} (r : Result A) : printed (logged r) = [].
Proof. by destruct r. Qed.

(** X17: whatever the environment does, [send_it] prints as unprocessed
    exactly the values inside the message that are neither an
    [AgentFinish] nor a list nor a tuple, each once and in order; the
    lists and tuples themselves and the [AgentFinish] values are never
    printed. *)
Theorem send_it_prints_unprocessed_leaves E message h b :
  printed (emitted (send_it E message h b)) = unprocessed_leaves message.
Proof.
  revert h.
  induction message as [| s | rv | parts IH | parts IH | t r]
    using pyvalue_parts_ind; intros h;
    try (rewrite ?(proj1 (send_it_list_events E _ _ _)),
           ?(proj2 (send_it_list_events E _ _ _));
         cbn [unprocessed_leaves]; revert h;
         induction IH as [|p parts Hp _ IHparts]; intros h; [done|];
         rewrite for_each_send_it_cons; cbn [after_events emitted flat_map];
         by rewrite printed_app, Hp, IHparts);
    rewrite send_it_unfold;
    match goal with |- context [try_except ?body _ _ _ _] =>
      destruct (try_except_log body h b) as (_ & _ & ->) end;
    rewrite printed_app, printed_logged, app_nil_r; cbn [send_it_try_block];
    try (by rewrite external_eq).
  destruct rv as [rv|]; [|done].
  rewrite (bind_Ok _ _ _ _ b) by done. cbv zeta.
  cbn [after_events get_self result self_after emitted app].
  destruct (message_raises E (rv_get rv "output")); [done|].
  destruct (socket b); [|done]. by rewrite external_eq.
Qed.

(** X18: [run_crew] on a builder as [__init__] leaves it, before any
    [build_crew], does not start the engine: it logs the
    [AttributeError] of calling [kickoff] on [None] and returns
    normally, with the builder unchanged. *)
Theorem run_crew_before_build_crew E session crew_record agents tasks tools
    datasources models credentials h h' :
  let o0 := __init__ E session crew_record agents tasks tools datasources
              models credentials h in
  let o := run_crew E h' (self_after o0) in
  result o = Ok tt
  ∧ emitted o = [EvLogException (NoneType_has_no_attribute "kickoff")]
  ∧ self_after o = self_after o0.
Proof.
  cbv zeta.
  assert (Hinit : crew (self_after
    (__init__ E session crew_record agents tasks tools datasources models
       credentials h)) = None).
  { unfold __init__. rewrite init_socket_eq. by repeat case_oracle. }
  destruct (run_crew_never_raises_aux E h' (self_after
    (__init__ E session crew_record agents tasks tools datasources models
       credentials h))) as (Hr & Hs & He).
  rewrite Hinit in He. done.
Qed.
